(** * Image Walker: physics and procedural-level engine

    A shallow embedding of the simulation core of [imagewalkerv1.py]
    (persistence helpers, [ImageWalkerMode], [generate_level_by_index] and
    [LevelPlayMode]) together with the properties its specification states.

    Numbers.  A Python [float] is an IEEE-754 binary64 value, which is what
    Rocq's primitive [float] is, so float arithmetic is modelled bit for bit.
    A Python [int] is a [Z]; where the program mixes the two the integer is
    converted with [of_int], as the interpreter does.

    Effects.  The mutable object [self] is a record that every step of the
    frame update takes and returns.  The process-global random generator, the
    wall clock and the class attribute [COIN_ID_COUNTER] live in that record
    too, next to a trace of the calls that leave the object (saves, blocking
    screens, drawing).  An exception is the [Raise] case of [outcome]. *)

From Stdlib Require Import ZArith List Bool String Floats Lia.
Import ListNotations.

Set Implicit Arguments.
Set Warnings "-inexact-float,-register-all".

Local Open Scope Z_scope.
Local Open Scope bool_scope.
Local Open Scope float_scope.

(* ================================================================== *)
(** * Python numbers *)
(* ================================================================== *)

Module PyNum.

(** [float(n)] for an [int]: the nearest binary64 value, ties to even. *)
Definition of_int (z : Z) : float :=
  SF2Prim (binary_normalize prec emax z 0%Z false).

(** [a > b] and [a >= b] are the primitive comparisons read right to left. *)
Definition gtb (a b : float) : bool := b <? a.
Definition geb (a b : float) : bool := b <=? a.

(** The two-argument builtins [max] and [min] keep their first argument
    unless the second compares strictly beyond it. *)
Definition py_max (a b : float) : float := if gtb b a then b else a.
Definition py_min (a b : float) : float := if b <? a then b else a.

(** The exceptions the modelled code can meet. *)
Inductive exn : Set :=
  | ValueError | OverflowError | TypeError | AttributeError
  | ZeroDivisionError | OSError | JSONDecodeError.

Inductive outcome (A : Type) : Type :=
  | Return (a : A)
  | Raise (e : exn).
Arguments Return {A} a.
Arguments Raise {A} e.

Definition bind {A B} (m : outcome A) (k : A -> outcome B) : outcome B :=
  match m with
  | Return a => k a
  | Raise e => Raise e
  end.

(** [try: body except Exception: handler] *)
Definition try_except {A} (body : outcome A) (handler : outcome A) : outcome A :=
  match body with
  | Return a => Return a
  | Raise _ => handler
  end.

(** [int(x)] on a float: truncation toward zero; [nan] and the infinities
    raise. *)
Definition py_int (x : float) : outcome Z :=
  match Prim2SF x with
  | S754_zero _ => Return 0%Z
  | S754_finite s m e =>
      let a := match e with
               | Z0 => Zpos m
               | Zpos p => Z.shiftl (Zpos m) (Zpos p)
               | Zneg p => Z.shiftr (Zpos m) (Zpos p)
               end in
      Return (if s then Z.opp a else a)
  | S754_infinity _ => Raise OverflowError
  | S754_nan => Raise ValueError
  end.

(** [math.floor(x)]: the largest integer not above [x]. *)
Definition py_floor (x : float) : outcome Z :=
  match Prim2SF x with
  | S754_zero _ => Return 0%Z
  | S754_finite s m e =>
      let sm := if s then Zneg m else Zpos m in
      Return (match e with
              | Z0 => sm
              | Zpos p => Z.shiftl sm (Zpos p)
              | Zneg p => Z.shiftr sm (Zpos p)
              end)
  | S754_infinity _ => Raise OverflowError
  | S754_nan => Raise ValueError
  end.

(** [a / b] on floats raises on a zero divisor. *)
Definition py_div (a b : float) : outcome float :=
  if b =? 0 then Raise ZeroDivisionError else Return (a / b).

End PyNum.
Export PyNum.

Notation "x <- m ;; k" := (bind m (fun x => k))
  (at level 61, m at next level, right associativity).

(** [clamp] (Utilities). *)
Definition clamp (v a b : float) : float := py_max a (py_min b v).

(* ================================================================== *)
(** * Geometry primitives *)
(* ================================================================== *)

(** [ImageWalkerMode._intersect]: open-interval overlap on both axes. *)
Definition _intersect (ax ay aw ah bx by_ bw bh : float) : bool :=
  (ax <? bx + bw) && gtb (ax + aw) bx && (ay <? by_ + bh) && gtb (ay + ah) by_.

(** [ImageWalkerMode._circle_rect_overlap]: clamp the centre to the
    rectangle and compare squared distances. *)
Definition _circle_rect_overlap (cx cy r rx ry rw rh : float) : bool :=
  let closest_x := py_max rx (py_min cx (rx + rw)) in
  let closest_y := py_max ry (py_min cy (ry + rh)) in
  let dx := cx - closest_x in
  let dy := cy - closest_y in
  (dx * dx + dy * dy) <=? (r * r).

(* ================================================================== *)
(** * Entities *)
(* ================================================================== *)

(** Spikes and springs: the dictionaries [{"x","y","w","h"}]. *)
Record rect : Set := mkRect { r_x : float; r_y : float; r_w : float; r_h : float }.

(** A platform carries a decorative photo, here only its pixel size. *)
Record platform : Set := mkPlatform {
  pl_x : float; pl_y : float; pl_w : float; pl_h : float;
  pl_photo : option (Z * Z)
}.

Record mover : Set := mkMover {
  mv_x : float; mv_y : float; mv_w : float; mv_h : float;
  mv_vx : float; mv_home : float; mv_range : float
}.

Inductive orb_type : Set := small | normal | high.

Record orb : Set := mkOrb {
  orb_x : float; orb_y : float; orb_r : float; orb_typ : orb_type
}.

Record coin : Set := mkCoin {
  coin_id : Z; coin_x : float; coin_y : float; coin_r : float;
  coin_collected : bool
}.

Definition platform_rect (p : platform) : rect :=
  mkRect (pl_x p) (pl_y p) (pl_w p) (pl_h p).
Definition mover_rect (m : mover) : rect :=
  mkRect (mv_x m) (mv_y m) (mv_w m) (mv_h m).

Definition orb_type_eqb (a b : orb_type) : bool :=
  match a, b with
  | small, small | normal, normal | high, high => true
  | _, _ => false
  end.

(** Membership in the set of touched orb types. *)
Definition type_in (t : orb_type) (ts : list orb_type) : bool :=
  existsb (orb_type_eqb t) ts.

(* ================================================================== *)
(** * Persistence helpers *)
(* ================================================================== *)

Module Persistence.

(** What [json.load] hands back. *)
Inductive json : Type :=
  | JNull
  | JBool (b : bool)
  | JInt (z : Z)
  | JFloat (f : float)
  | JStr (s : string)
  | JList (l : list json)
  | JDict (d : list (string * json)).

(** What the three calls [os.path.exists], [open] and [json.load] meet at
    [COIN_SAVE_FILE]. *)
Inductive save_file : Type :=
  | Missing                 (* [os.path.exists] is false *)
  | Unreadable              (* [open] raises *)
  | Corrupt                 (* [json.load] raises *)
  | Stored (data : json).   (* [json.load] returns [data] *)

Record coins_data : Type := mkCoinsData {
  cd_coins : json;
  cd_buff_end_time : float
}.

Definition default_coins_data : coins_data := mkCoinsData (JList []) 0.

Fixpoint dict_get (k : string) (d : list (string * json)) : option json :=
  match d with
  | [] => None
  | (k', v) :: d' => if String.eqb k k' then Some v else dict_get k d'
  end.

(** [data.get(k, default)]: only a dict has the method. *)
Definition py_get (data : json) (k : string) (default : json) : outcome json :=
  match data with
  | JDict d => Return (match dict_get k d with Some v => v | None => default end)
  | _ => Raise AttributeError
  end.

Section Load.

(** [float(s)] on a string is the interpreter's own number parser. *)
Variable float_of_string : string -> option float.

(** The builtin [float(v)]. *)
Definition py_float (v : json) : outcome float :=
  match v with
  | JFloat f => Return f
  | JInt z => if is_infinity (of_int z) then Raise OverflowError
              else Return (of_int z)
  | JBool b => Return (if b then 1 else 0)
  | JStr s => match float_of_string s with
              | Some f => Return f
              | None => Raise ValueError
              end
  | JNull | JList _ | JDict _ => Raise TypeError
  end.

(** The body of the [try]: [Return None] when control falls out of it
    without reaching the inner [return]. *)
Definition load_coins_data_try (f : save_file) : outcome (option coins_data) :=
  match f with
  | Missing => Return None
  | Unreadable => Raise OSError
  | Corrupt => Raise JSONDecodeError
  | Stored data =>
      c <- py_get data "coins" (JList []) ;;
      b <- py_get data "buff_end_time" (JFloat 0) ;;
      t <- py_float b ;;
      Return (Some (mkCoinsData c t))
  end.

Definition load_coins_data (f : save_file) : outcome coins_data :=
  r <- try_except (load_coins_data_try f) (Return None) ;;
  match r with
  | Some v => Return v
  | None => Return default_coins_data
  end.

End Load.

End Persistence.

(* ================================================================== *)
(** * The random module *)
(* ================================================================== *)

(** A generator of the [random] module, by the three methods everything
    else in the module is written with. *)
Class PyRandom (G : Type) : Type := {
  Random : Z -> G;                      (* [random.Random(seed)] *)
  rng_random : G -> float * G;          (* [.random()] *)
  rng_randbelow : Z -> G -> Z * G       (* [._randbelow(n)] *)
}.

(** [_randbelow(n)] lies in [0, n). *)
Class PyRandomSpec (G : Type) {R : PyRandom G} : Prop := {
  randbelow_range : forall n g, (0 < n)%Z ->
    (0 <= fst (rng_randbelow n g) < n)%Z
}.
Arguments PyRandomSpec G {R}.

Section RandomModule.
Context {G : Type} `{PyRandom G}.

(** [randint(a, b)] is [a + _randbelow(b - a + 1)]. *)
Definition randint (a b : Z) (g : G) : Z * G :=
  let (k, g') := rng_randbelow (b - a + 1)%Z g in ((a + k)%Z, g').

(** [uniform(a, b)] is [a + (b - a) * random()]. *)
Definition uniform (a b : float) (g : G) : float * G :=
  let (u, g') := rng_random g in (a + (b - a) * u, g').

(** [choice(seq)] is [seq[_randbelow(len(seq))]]. *)
Definition choice {A} (seq : list A) (d : A) (g : G) : A * G :=
  let (i, g') := rng_randbelow (Z.of_nat (List.length seq)) g in
  (nth (Z.to_nat i) seq d, g').

Fixpoint accumulate (acc : float) (ws : list float) : list float :=
  match ws with
  | [] => []
  | x :: ws' => let a := acc + x in a :: accumulate a ws'
  end.

(** [bisect(a, x, 0, hi)] on an ascending list: the number of leading
    elements, among the first [hi], that [x] is not below. *)
Fixpoint bisect (a : list float) (x : float) (hi : nat) : nat :=
  match hi, a with
  | S hi', y :: a' => if x <? y then O else S (bisect a' x hi')
  | _, _ => O
  end.

(** [choices(population, weights)[0]] *)
Definition choices {A} (population : list A) (weights : list float) (d : A)
    (g : G) : A * G :=
  let cum := match weights with
             | [] => []
             | x :: ws => x :: accumulate x ws
             end in
  let total := last cum 0 + 0 in
  let (u, g') := rng_random g in
  (nth (bisect cum (u * total) (List.length population - 1)) population d, g').

End RandomModule.

(* ================================================================== *)
(** * The state of a session *)
(* ================================================================== *)

(** The asset library, as far as the level builder looks at it: the
    length of [lib_surfaces] and, for an index and a target width, the pixel
    size of the surface [get_lib_photo] returns, if it returns one. *)
Record AssetManager : Type := mkAssets {
  lib_surfaces_len : Z;
  get_lib_photo : Z -> Z -> option (Z * Z)
}.

(** The attributes [ImageWalkerMode.__init__] sets once. *)
Record Params : Type := mkParams {
  w : Z; h : Z;
  gravity : float; move_accel : float; max_speed : float; jump_speed : float;
  friction_ground : float; friction_air : float; kill_y : float;
  pw : Z; ph : Z;
  ground_y : Z;
  sidescroller : bool; scroll_speed : float; left_wall_kill : bool;
  assets : AssetManager
}.

(** Calls that leave the object, in the order they are made.  The last
    three are bookkeeping of the model: they mark a call to
    [_add_level_chunk], the branch that sets the "Spring launched!" message,
    and [_draw]. *)
Inductive call : Type :=
  | save_coins_data (saved : list coin) (saved_buff_end_time : float)
  | game_over_screen (reason : string)
  | level_complete_screen
  | on_exit
  | chunk_generated
  | spring_launched
  | drawn.

(** The goal of a seeded level: [{"x", "y", "size"}]. *)
Record Finish : Set := mkFinish { f_x : float; f_y : float; f_size : Z }.

Set Maximal Implicit Insertion.

Section State.
Variable G : Type.

(** [self], followed by what the methods reach outside it: the global
    generator of the [random] module, the readings [time.time()] returns
    (in call order, with the number of calls made so far), and the class
    attribute [COIN_ID_COUNTER].  [finish] is the attribute only a
    [LevelPlayMode] object has. *)
Record Mode : Type := mkMode {
  cfg : Params;
  px : float; py : float; vx : float; vy : float;
  on_ground : bool; dead : bool; running : bool;
  hold_left : bool; hold_right : bool; want_jump : bool;
  platforms : list platform; movers : list mover; spikes : list rect;
  orbs : list orb; springs : list rect;
  time_alive : float; score : Z; cam_x : float; cam_y : float;
  level_extent_x : float;
  coins : list coin; buff_end_time : float;
  _msg : option string; _msg_timer : float;
  finish : option Finish;
  rng : G; clock : nat -> float; clock_reads : nat;
  COIN_ID_COUNTER : Z;
  trace : list call
}.

(** Attribute assignment, one function per attribute that is assigned. *)
Definition set_cfg (v : Params) (s : Mode) : Mode :=
  mkMode v (px s) (py s) (vx s) (vy s) (on_ground s) (dead s) (running s)
    (hold_left s) (hold_right s) (want_jump s) (platforms s) (movers s)
    (spikes s) (orbs s) (springs s) (time_alive s) (score s) (cam_x s)
    (cam_y s) (level_extent_x s) (coins s) (buff_end_time s) (_msg s)
    (_msg_timer s) (finish s) (rng s) (clock s) (clock_reads s)
    (COIN_ID_COUNTER s) (trace s).
Definition set_px (v : float) (s : Mode) : Mode :=
  mkMode (cfg s) v (py s) (vx s) (vy s) (on_ground s) (dead s) (running s)
    (hold_left s) (hold_right s) (want_jump s) (platforms s) (movers s)
    (spikes s) (orbs s) (springs s) (time_alive s) (score s) (cam_x s)
    (cam_y s) (level_extent_x s) (coins s) (buff_end_time s) (_msg s)
    (_msg_timer s) (finish s) (rng s) (clock s) (clock_reads s)
    (COIN_ID_COUNTER s) (trace s).
Definition set_py (v : float) (s : Mode) : Mode :=
  mkMode (cfg s) (px s) v (vx s) (vy s) (on_ground s) (dead s) (running s)
    (hold_left s) (hold_right s) (want_jump s) (platforms s) (movers s)
    (spikes s) (orbs s) (springs s) (time_alive s) (score s) (cam_x s)
    (cam_y s) (level_extent_x s) (coins s) (buff_end_time s) (_msg s)
    (_msg_timer s) (finish s) (rng s) (clock s) (clock_reads s)
    (COIN_ID_COUNTER s) (trace s).
Definition set_vx (v : float) (s : Mode) : Mode :=
  mkMode (cfg s) (px s) (py s) v (vy s) (on_ground s) (dead s) (running s)
    (hold_left s) (hold_right s) (want_jump s) (platforms s) (movers s)
    (spikes s) (orbs s) (springs s) (time_alive s) (score s) (cam_x s)
    (cam_y s) (level_extent_x s) (coins s) (buff_end_time s) (_msg s)
    (_msg_timer s) (finish s) (rng s) (clock s) (clock_reads s)
    (COIN_ID_COUNTER s) (trace s).
Definition set_vy (v : float) (s : Mode) : Mode :=
  mkMode (cfg s) (px s) (py s) (vx s) v (on_ground s) (dead s) (running s)
    (hold_left s) (hold_right s) (want_jump s) (platforms s) (movers s)
    (spikes s) (orbs s) (springs s) (time_alive s) (score s) (cam_x s)
    (cam_y s) (level_extent_x s) (coins s) (buff_end_time s) (_msg s)
    (_msg_timer s) (finish s) (rng s) (clock s) (clock_reads s)
    (COIN_ID_COUNTER s) (trace s).
Definition set_on_ground (v : bool) (s : Mode) : Mode :=
  mkMode (cfg s) (px s) (py s) (vx s) (vy s) v (dead s) (running s)
    (hold_left s) (hold_right s) (want_jump s) (platforms s) (movers s)
    (spikes s) (orbs s) (springs s) (time_alive s) (score s) (cam_x s)
    (cam_y s) (level_extent_x s) (coins s) (buff_end_time s) (_msg s)
    (_msg_timer s) (finish s) (rng s) (clock s) (clock_reads s)
    (COIN_ID_COUNTER s) (trace s).
Definition set_dead (v : bool) (s : Mode) : Mode :=
  mkMode (cfg s) (px s) (py s) (vx s) (vy s) (on_ground s) v (running s)
    (hold_left s) (hold_right s) (want_jump s) (platforms s) (movers s)
    (spikes s) (orbs s) (springs s) (time_alive s) (score s) (cam_x s)
    (cam_y s) (level_extent_x s) (coins s) (buff_end_time s) (_msg s)
    (_msg_timer s) (finish s) (rng s) (clock s) (clock_reads s)
    (COIN_ID_COUNTER s) (trace s).
Definition set_running (v : bool) (s : Mode) : Mode :=
  mkMode (cfg s) (px s) (py s) (vx s) (vy s) (on_ground s) (dead s) v
    (hold_left s) (hold_right s) (want_jump s) (platforms s) (movers s)
    (spikes s) (orbs s) (springs s) (time_alive s) (score s) (cam_x s)
    (cam_y s) (level_extent_x s) (coins s) (buff_end_time s) (_msg s)
    (_msg_timer s) (finish s) (rng s) (clock s) (clock_reads s)
    (COIN_ID_COUNTER s) (trace s).
Definition set_hold_left (v : bool) (s : Mode) : Mode :=
  mkMode (cfg s) (px s) (py s) (vx s) (vy s) (on_ground s) (dead s)
    (running s) v (hold_right s) (want_jump s) (platforms s) (movers s)
    (spikes s) (orbs s) (springs s) (time_alive s) (score s) (cam_x s)
    (cam_y s) (level_extent_x s) (coins s) (buff_end_time s) (_msg s)
    (_msg_timer s) (finish s) (rng s) (clock s) (clock_reads s)
    (COIN_ID_COUNTER s) (trace s).
Definition set_hold_right (v : bool) (s : Mode) : Mode :=
  mkMode (cfg s) (px s) (py s) (vx s) (vy s) (on_ground s) (dead s)
    (running s) (hold_left s) v (want_jump s) (platforms s) (movers s)
    (spikes s) (orbs s) (springs s) (time_alive s) (score s) (cam_x s)
    (cam_y s) (level_extent_x s) (coins s) (buff_end_time s) (_msg s)
    (_msg_timer s) (finish s) (rng s) (clock s) (clock_reads s)
    (COIN_ID_COUNTER s) (trace s).
Definition set_want_jump (v : bool) (s : Mode) : Mode :=
  mkMode (cfg s) (px s) (py s) (vx s) (vy s) (on_ground s) (dead s)
    (running s) (hold_left s) (hold_right s) v (platforms s) (movers s)
    (spikes s) (orbs s) (springs s) (time_alive s) (score s) (cam_x s)
    (cam_y s) (level_extent_x s) (coins s) (buff_end_time s) (_msg s)
    (_msg_timer s) (finish s) (rng s) (clock s) (clock_reads s)
    (COIN_ID_COUNTER s) (trace s).
Definition set_platforms (v : list platform) (s : Mode) : Mode :=
  mkMode (cfg s) (px s) (py s) (vx s) (vy s) (on_ground s) (dead s)
    (running s) (hold_left s) (hold_right s) (want_jump s) v (movers s)
    (spikes s) (orbs s) (springs s) (time_alive s) (score s) (cam_x s)
    (cam_y s) (level_extent_x s) (coins s) (buff_end_time s) (_msg s)
    (_msg_timer s) (finish s) (rng s) (clock s) (clock_reads s)
    (COIN_ID_COUNTER s) (trace s).
Definition set_movers (v : list mover) (s : Mode) : Mode :=
  mkMode (cfg s) (px s) (py s) (vx s) (vy s) (on_ground s) (dead s)
    (running s) (hold_left s) (hold_right s) (want_jump s) (platforms s) v
    (spikes s) (orbs s) (springs s) (time_alive s) (score s) (cam_x s)
    (cam_y s) (level_extent_x s) (coins s) (buff_end_time s) (_msg s)
    (_msg_timer s) (finish s) (rng s) (clock s) (clock_reads s)
    (COIN_ID_COUNTER s) (trace s).
Definition set_spikes (v : list rect) (s : Mode) : Mode :=
  mkMode (cfg s) (px s) (py s) (vx s) (vy s) (on_ground s) (dead s)
    (running s) (hold_left s) (hold_right s) (want_jump s) (platforms s)
    (movers s) v (orbs s) (springs s) (time_alive s) (score s) (cam_x s)
    (cam_y s) (level_extent_x s) (coins s) (buff_end_time s) (_msg s)
    (_msg_timer s) (finish s) (rng s) (clock s) (clock_reads s)
    (COIN_ID_COUNTER s) (trace s).
Definition set_orbs (v : list orb) (s : Mode) : Mode :=
  mkMode (cfg s) (px s) (py s) (vx s) (vy s) (on_ground s) (dead s)
    (running s) (hold_left s) (hold_right s) (want_jump s) (platforms s)
    (movers s) (spikes s) v (springs s) (time_alive s) (score s) (cam_x s)
    (cam_y s) (level_extent_x s) (coins s) (buff_end_time s) (_msg s)
    (_msg_timer s) (finish s) (rng s) (clock s) (clock_reads s)
    (COIN_ID_COUNTER s) (trace s).
Definition set_springs (v : list rect) (s : Mode) : Mode :=
  mkMode (cfg s) (px s) (py s) (vx s) (vy s) (on_ground s) (dead s)
    (running s) (hold_left s) (hold_right s) (want_jump s) (platforms s)
    (movers s) (spikes s) (orbs s) v (time_alive s) (score s) (cam_x s)
    (cam_y s) (level_extent_x s) (coins s) (buff_end_time s) (_msg s)
    (_msg_timer s) (finish s) (rng s) (clock s) (clock_reads s)
    (COIN_ID_COUNTER s) (trace s).
Definition set_time_alive (v : float) (s : Mode) : Mode :=
  mkMode (cfg s) (px s) (py s) (vx s) (vy s) (on_ground s) (dead s)
    (running s) (hold_left s) (hold_right s) (want_jump s) (platforms s)
    (movers s) (spikes s) (orbs s) (springs s) v (score s) (cam_x s)
    (cam_y s) (level_extent_x s) (coins s) (buff_end_time s) (_msg s)
    (_msg_timer s) (finish s) (rng s) (clock s) (clock_reads s)
    (COIN_ID_COUNTER s) (trace s).
Definition set_score (v : Z) (s : Mode) : Mode :=
  mkMode (cfg s) (px s) (py s) (vx s) (vy s) (on_ground s) (dead s)
    (running s) (hold_left s) (hold_right s) (want_jump s) (platforms s)
    (movers s) (spikes s) (orbs s) (springs s) (time_alive s) v (cam_x s)
    (cam_y s) (level_extent_x s) (coins s) (buff_end_time s) (_msg s)
    (_msg_timer s) (finish s) (rng s) (clock s) (clock_reads s)
    (COIN_ID_COUNTER s) (trace s).
Definition set_cam_x (v : float) (s : Mode) : Mode :=
  mkMode (cfg s) (px s) (py s) (vx s) (vy s) (on_ground s) (dead s)
    (running s) (hold_left s) (hold_right s) (want_jump s) (platforms s)
    (movers s) (spikes s) (orbs s) (springs s) (time_alive s) (score s) v
    (cam_y s) (level_extent_x s) (coins s) (buff_end_time s) (_msg s)
    (_msg_timer s) (finish s) (rng s) (clock s) (clock_reads s)
    (COIN_ID_COUNTER s) (trace s).
Definition set_cam_y (v : float) (s : Mode) : Mode :=
  mkMode (cfg s) (px s) (py s) (vx s) (vy s) (on_ground s) (dead s)
    (running s) (hold_left s) (hold_right s) (want_jump s) (platforms s)
    (movers s) (spikes s) (orbs s) (springs s) (time_alive s) (score s)
    (cam_x s) v (level_extent_x s) (coins s) (buff_end_time s) (_msg s)
    (_msg_timer s) (finish s) (rng s) (clock s) (clock_reads s)
    (COIN_ID_COUNTER s) (trace s).
Definition set_level_extent_x (v : float) (s : Mode) : Mode :=
  mkMode (cfg s) (px s) (py s) (vx s) (vy s) (on_ground s) (dead s)
    (running s) (hold_left s) (hold_right s) (want_jump s) (platforms s)
    (movers s) (spikes s) (orbs s) (springs s) (time_alive s) (score s)
    (cam_x s) (cam_y s) v (coins s) (buff_end_time s) (_msg s)
    (_msg_timer s) (finish s) (rng s) (clock s) (clock_reads s)
    (COIN_ID_COUNTER s) (trace s).
Definition set_coins (v : list coin) (s : Mode) : Mode :=
  mkMode (cfg s) (px s) (py s) (vx s) (vy s) (on_ground s) (dead s)
    (running s) (hold_left s) (hold_right s) (want_jump s) (platforms s)
    (movers s) (spikes s) (orbs s) (springs s) (time_alive s) (score s)
    (cam_x s) (cam_y s) (level_extent_x s) v (buff_end_time s) (_msg s)
    (_msg_timer s) (finish s) (rng s) (clock s) (clock_reads s)
    (COIN_ID_COUNTER s) (trace s).
Definition set_buff_end_time (v : float) (s : Mode) : Mode :=
  mkMode (cfg s) (px s) (py s) (vx s) (vy s) (on_ground s) (dead s)
    (running s) (hold_left s) (hold_right s) (want_jump s) (platforms s)
    (movers s) (spikes s) (orbs s) (springs s) (time_alive s) (score s)
    (cam_x s) (cam_y s) (level_extent_x s) (coins s) v (_msg s)
    (_msg_timer s) (finish s) (rng s) (clock s) (clock_reads s)
    (COIN_ID_COUNTER s) (trace s).
Definition set__msg (v : option string) (s : Mode) : Mode :=
  mkMode (cfg s) (px s) (py s) (vx s) (vy s) (on_ground s) (dead s)
    (running s) (hold_left s) (hold_right s) (want_jump s) (platforms s)
    (movers s) (spikes s) (orbs s) (springs s) (time_alive s) (score s)
    (cam_x s) (cam_y s) (level_extent_x s) (coins s) (buff_end_time s) v
    (_msg_timer s) (finish s) (rng s) (clock s) (clock_reads s)
    (COIN_ID_COUNTER s) (trace s).
Definition set__msg_timer (v : float) (s : Mode) : Mode :=
  mkMode (cfg s) (px s) (py s) (vx s) (vy s) (on_ground s) (dead s)
    (running s) (hold_left s) (hold_right s) (want_jump s) (platforms s)
    (movers s) (spikes s) (orbs s) (springs s) (time_alive s) (score s)
    (cam_x s) (cam_y s) (level_extent_x s) (coins s) (buff_end_time s)
    (_msg s) v (finish s) (rng s) (clock s) (clock_reads s)
    (COIN_ID_COUNTER s) (trace s).
Definition set_finish (v : option Finish) (s : Mode) : Mode :=
  mkMode (cfg s) (px s) (py s) (vx s) (vy s) (on_ground s) (dead s)
    (running s) (hold_left s) (hold_right s) (want_jump s) (platforms s)
    (movers s) (spikes s) (orbs s) (springs s) (time_alive s) (score s)
    (cam_x s) (cam_y s) (level_extent_x s) (coins s) (buff_end_time s)
    (_msg s) (_msg_timer s) v (rng s) (clock s) (clock_reads s)
    (COIN_ID_COUNTER s) (trace s).
Definition set_rng (v : G) (s : Mode) : Mode :=
  mkMode (cfg s) (px s) (py s) (vx s) (vy s) (on_ground s) (dead s)
    (running s) (hold_left s) (hold_right s) (want_jump s) (platforms s)
    (movers s) (spikes s) (orbs s) (springs s) (time_alive s) (score s)
    (cam_x s) (cam_y s) (level_extent_x s) (coins s) (buff_end_time s)
    (_msg s) (_msg_timer s) (finish s) v (clock s) (clock_reads s)
    (COIN_ID_COUNTER s) (trace s).
Definition set_clock_reads (v : nat) (s : Mode) : Mode :=
  mkMode (cfg s) (px s) (py s) (vx s) (vy s) (on_ground s) (dead s)
    (running s) (hold_left s) (hold_right s) (want_jump s) (platforms s)
    (movers s) (spikes s) (orbs s) (springs s) (time_alive s) (score s)
    (cam_x s) (cam_y s) (level_extent_x s) (coins s) (buff_end_time s)
    (_msg s) (_msg_timer s) (finish s) (rng s) (clock s) v
    (COIN_ID_COUNTER s) (trace s).
Definition set_COIN_ID_COUNTER (v : Z) (s : Mode) : Mode :=
  mkMode (cfg s) (px s) (py s) (vx s) (vy s) (on_ground s) (dead s)
    (running s) (hold_left s) (hold_right s) (want_jump s) (platforms s)
    (movers s) (spikes s) (orbs s) (springs s) (time_alive s) (score s)
    (cam_x s) (cam_y s) (level_extent_x s) (coins s) (buff_end_time s)
    (_msg s) (_msg_timer s) (finish s) (rng s) (clock s) (clock_reads s) v
    (trace s).
Definition set_trace (v : list call) (s : Mode) : Mode :=
  mkMode (cfg s) (px s) (py s) (vx s) (vy s) (on_ground s) (dead s)
    (running s) (hold_left s) (hold_right s) (want_jump s) (platforms s)
    (movers s) (spikes s) (orbs s) (springs s) (time_alive s) (score s)
    (cam_x s) (cam_y s) (level_extent_x s) (coins s) (buff_end_time s)
    (_msg s) (_msg_timer s) (finish s) (rng s) (clock s) (clock_reads s)
    (COIN_ID_COUNTER s) v.

End State.

Unset Maximal Implicit Insertion.
Arguments mkMode {G}.

(* ================================================================== *)
(** * Configuration *)
(* ================================================================== *)

Definition COIN_CHUNK_SPAWN_PROB : float := 0.06.
Definition SPRING_CHUNK_SPAWN_PROB : float := 0.015.
Definition SPRING_BOOST : float := -760.
Definition BUFF_DURATION_SECONDS : float := 60.

(* ================================================================== *)
(** * ImageWalkerMode: building the world *)
(* ================================================================== *)

Section ImageWalkerMode.
Context {G : Type} `{PyRandom G}.

Local Abbreviation Mode := (Mode G).

Definition log (c : call) (s : Mode) : Mode := set_trace (trace s ++ [c]) s.

(** [time.time()]: the next reading of the wall clock. *)
Definition time_time (s : Mode) : float * Mode :=
  (clock s (clock_reads s), set_clock_reads (S (clock_reads s)) s).

(** A draw from the global generator [random]. *)
Definition rand {A} (f : G -> A * G) (s : Mode) : A * Mode :=
  let (a, g) := f (rng s) in (a, set_rng g s).

Definition _save_coins_state (s : Mode) : Mode :=
  log (save_coins_data (coins s) (buff_end_time s)) s.

(** The loop of [_generate_coin]: is some uncollected coin nearer than 64
    to [(x, y)]?  The test is on squared distances. *)
Fixpoint coin_too_close (cs : list coin) (x y : float) : bool :=
  match cs with
  | [] => false
  | c :: cs' =>
      if coin_collected c then coin_too_close cs' x y
      else
        let dx := coin_x c - x in
        let dy := coin_y c - y in
        if dx * dx + dy * dy <? of_int (64 * 64) then true
        else coin_too_close cs' x y
  end.

Definition _generate_coin (x y : float) (s : Mode) : option coin * Mode :=
  if coin_too_close (coins s) x y then (None, s)
  else
    let cid := COIN_ID_COUNTER s in
    let s := set_COIN_ID_COUNTER (cid + 1)%Z s in
    let c := mkCoin cid x y 10 false in
    let s := set_coins (coins s ++ [c]) s in
    (Some c, _save_coins_state s).

Definition _generate_spring (x : float) (s : Mode) : option rect * Mode :=
  let sx := x in
  let sy := of_int (ground_y (cfg s) - 12) in
  if existsb (fun sp => abs (r_x sp - sx) <? 80) (springs s) then (None, s)
  else
    let spring := mkRect sx sy (of_int 48) (of_int 12) in
    (Some spring, set_springs (springs s ++ [spring]) s).

Definition _add_platform (x : float) (y w_ : Z) (h_ : option Z)
    (img_idx : option Z) (s : Mode) : Mode :=
  let photo :=
    match img_idx with
    | Some i =>
        if (0 <=? i)%Z && (i <? lib_surfaces_len (assets (cfg s)))%Z
        then get_lib_photo (assets (cfg s)) i w_
        else None
    | None => None
    end in
  let '(w_, h_) := match photo with
                   | Some (nw, nh) => (nw, Some nh)
                   | None => (w_, h_)
                   end in
  let h_ := match h_ with Some v => v | None => 48%Z end in
  set_platforms
    (platforms s ++ [mkPlatform x (of_int y) (of_int w_) (of_int h_) photo]) s.

Definition _add_mover (x : float) (y w_ h_ vx_ move_range : Z) (s : Mode) : Mode :=
  set_movers
    (movers s ++ [mkMover x (of_int y) (of_int w_) (of_int h_) (of_int vx_)
                          x (of_int move_range)]) s.

Definition _add_spikes (x : float) (y w_ h_ : Z) (s : Mode) : Mode :=
  set_spikes (spikes s ++ [mkRect x (of_int y) (of_int w_) (of_int h_)]) s.

Definition _add_orb (x y : float) (typ : orb_type) (s : Mode) : Mode :=
  let r := match typ with small => 10%Z | normal => 12%Z | high => 14%Z end in
  set_orbs (orbs s ++ [mkOrb x y (of_int r) typ]) s.

(** One generation step: a platform at the frontier, then the five
    independent rolls, then the frontier moves on by width plus gap.  Every
    draw is from the global generator. *)
Definition _add_level_chunk (s : Mode) : Mode :=
  let s := log chunk_generated s in
  let lib_n := lib_surfaces_len (assets (cfg s)) in
  let '(w_, s) := rand (randint 180 320) s in
  let '(gap, s) := rand (randint 80 200) s in
  let '(r, s) := rand (randint (-140) 140) s in
  let py_ := (ground_y (cfg s) + r)%Z in
  let idx := if (0 <? lib_n)%Z
             then Some (Z.of_nat (List.length (platforms s)) mod lib_n)%Z
             else None in
  let s := _add_platform (level_extent_x s) py_ w_ None idx s in
  let '(u, s) := rand rng_random s in
  let s :=
    if u <? 0.6 then
      let '(a, s) := rand (uniform (of_int w_ * 0.3) (of_int w_ * 0.7)) s in
      let ox := level_extent_x s + a in
      let '(b, s) := rand (uniform 80 160) s in
      let oy := of_int py_ - b in
      let '(typ, s) :=
        rand (choices [small; normal; high] [0.35; 0.45; 0.20] normal) s in
      _add_orb ox oy typ s
    else s in
  let '(u, s) := rand rng_random s in
  let s :=
    if u <? 0.35 then
      let '(mv_w_, s) := rand (randint 80 140) s in
      let '(a, s) :=
        rand (uniform (of_int w_ * 0.2) (of_int w_ * 0.8 - of_int mv_w_)) s in
      let mv_x_ := level_extent_x s + a in
      let '(b, s) := rand (randint 60 140) s in
      let mv_y_ := (py_ - b)%Z in
      let '(mv_vx_, s) := rand (choice [(-120)%Z; 120%Z] 0%Z) s in
      let '(mv_range_, s) := rand (randint 100 220) s in
      _add_mover mv_x_ mv_y_ mv_w_ 20 mv_vx_ mv_range_ s
    else s in
  let '(u, s) := rand rng_random s in
  let s :=
    if u <? 0.22 then
      _add_spikes (level_extent_x s + of_int w_ * 0.25) (py_ - 12) 64 16 s
    else s in
  let '(u, s) := rand rng_random s in
  let s :=
    if u <? COIN_CHUNK_SPAWN_PROB then
      let '(a, s) := rand (uniform (0.2 * of_int w_) (0.8 * of_int w_)) s in
      let cx := level_extent_x s + a in
      let '(b, s) := rand (uniform 40 120) s in
      let cy := of_int py_ - b in
      snd (_generate_coin cx cy s)
    else s in
  let '(u, s) := rand rng_random s in
  let s :=
    if u <? SPRING_CHUNK_SPAWN_PROB then
      let '(a, s) := rand (uniform (0.2 * of_int w_) (0.8 * of_int w_)) s in
      let sx := level_extent_x s + a in
      snd (_generate_spring sx s)
    else s in
  set_level_extent_x (level_extent_x s + of_int (w_ + gap)) s.

(** The loop [while self.level_extent_x < self.w * 1.5] of [_build_level],
    run for at most [fuel] chunks. *)
Fixpoint build_chunks (fuel : nat) (s : Mode) : option Mode :=
  if level_extent_x s <? of_int (w (cfg s)) * 1.5 then
    match fuel with
    | O => None
    | S fuel' => build_chunks fuel' (_add_level_chunk s)
    end
  else Some s.

Definition _build_level (fuel : nat) (s : Mode) : option Mode :=
  let s := set_platforms [] s in
  let s := set_movers [] s in
  let s := set_spikes [] s in
  let s := set_orbs [] s in
  let s := set_springs [] s in
  let lib_n := lib_surfaces_len (assets (cfg s)) in
  let s := set_level_extent_x 0 s in
  let s := _add_platform (level_extent_x s) (ground_y (cfg s)) 280 (Some 40%Z)
             (if (lib_n =? 0)%Z then None else Some 0%Z) s in
  let s := set_level_extent_x (level_extent_x s + 300) s in
  let s := _add_orb (level_extent_x s - 150)
             (of_int (ground_y (cfg s) - 120)) normal s in
  match build_chunks fuel s with
  | None => None
  | Some s =>
      let s :=
        match platforms s with
        | first :: _ =>
            set_py (pl_y first - of_int (ph (cfg s)) - 2)
              (set_px (pl_x first + 20) s)
        | [] =>
            set_py (of_int (ground_y (cfg s) - ph (cfg s) - 2)) (set_px 100 s)
        end in
      let s := set_cam_x (px s - of_int (w (cfg s)) * 0.4) s in
      let s := set_cam_y (py s - of_int (h (cfg s)) * 0.6) s in
      let seed_coin (s : Mode) : Mode :=
        let '(cx, s) :=
          rand (uniform 80 (py_max 200 (level_extent_x s - 40))) s in
        let '(b, s) := rand (uniform 40 120) s in
        let py_ := of_int (ground_y (cfg s)) - b in
        snd (_generate_coin cx py_ s) in
      Some (if existsb (fun c => negb (coin_collected c)) (coins s) then s
            else seed_coin (seed_coin (seed_coin s)))
  end.

(** [ImageWalkerMode.__init__], given the screen size, the assets, the
    [sidescroller] flag and the loaded collectible state, in an environment
    made of the global generator, the clock, the class counter and the
    trace so far. *)
Definition ImageWalkerMode_init (fuel : nat) (scr_w scr_h : Z)
    (assets_ : AssetManager) (sidescroller_ : bool)
    (loaded_coins : list coin) (loaded_buff_end_time : float)
    (g : G) (clock_ : nat -> float) (reads : nat) (counter : Z)
    (tr : list call) : option Mode :=
  let p := mkParams scr_w scr_h 1500 2200 360 580 1800 200 1200 36 48 400
             sidescroller_ (if sidescroller_ then 140 else 0)
             sidescroller_ assets_ in
  let s := mkMode p 100 (-50) 0 0 false false false false false false
             [] [] [] [] [] 0 0%Z 0 0 0 loaded_coins loaded_buff_end_time
             None 0 None g clock_ reads counter tr in
  match _build_level fuel s with
  | None => None
  | Some s =>
      let maxid := fold_left (fun m c => Z.max m (coin_id c)) (coins s) 0%Z in
      Some (set_COIN_ID_COUNTER (maxid + 1)%Z s)
  end.

(* ================================================================== *)
(** * ImageWalkerMode: one frame *)
(* ================================================================== *)

(** [start]: enter the running state (the music is not modelled). *)
Definition start (s : Mode) : Mode := set_running true s.

(** [stop]: flush the collectible state, leave the running state. *)
Definition stop (s : Mode) : Mode := set_running false (_save_coins_state s).

(** [_game_over]: a second death is ignored.  The screen it shows blocks
    until a key or a click, then the mode stops and [on_exit] is called; the
    caller resumes after that. *)
Definition _game_over (reason : string) (s : Mode) : Mode :=
  if dead s then s
  else
    let s := set_dead true s in
    let s := _save_coins_state s in
    let s := log (game_over_screen reason) s in
    log on_exit (stop s).

(** The body's rectangle against a rectangle. *)
Definition body_hits (s : Mode) (r : rect) : bool :=
  _intersect (px s) (py s) (of_int (pw (cfg s))) (of_int (ph (cfg s)))
             (r_x r) (r_y r) (r_w r) (r_h r).

(** The list [self.platforms + self.movers]. *)
Definition solids (s : Mode) : list rect :=
  map platform_rect (platforms s) ++ map mover_rect (movers s).

Definition _orbs_touching_player (s : Mode) : list orb_type :=
  fold_left
    (fun types o =>
       if _circle_rect_overlap (orb_x o) (orb_y o) (orb_r o) (px s) (py s)
            (of_int (pw (cfg s))) (of_int (ph (cfg s)))
       then (if type_in (orb_typ o) types then types else types ++ [orb_typ o])
       else types)
    (orbs s) [].

Inductive axis : Set := axis_x | axis_y.

(** One iteration of the loop of [_resolve_collisions]. *)
Definition resolve_one (a : axis) (s : Mode) (pl : rect) : Mode :=
  if negb (body_hits s pl) then s
  else
    match a with
    | axis_x =>
        let s :=
          if gtb (vx s) 0 then set_px (r_x pl - of_int (pw (cfg s))) s
          else if vx s <? 0 then set_px (r_x pl + r_w pl) s
          else s in
        set_vx 0 s
    | axis_y =>
        if gtb (vy s) 0 then
          set_on_ground true (set_vy 0 (set_py (r_y pl - of_int (ph (cfg s))) s))
        else if vy s <? 0 then
          set_vy 0 (set_py (r_y pl + r_h pl) s)
        else s
    end.

Definition _resolve_collisions (a : axis) (s : Mode) : Mode :=
  fold_left (resolve_one a) (solids s) s.

Definition _carry_velocity_from_mover (s : Mode) : float :=
  let feet_y := py s + of_int (ph (cfg s)) in
  let fix scan (ms : list mover) : float :=
    match ms with
    | [] => 0
    | m :: ms' =>
        let on_top := abs (feet_y - mv_y m) <=? 2 in
        let overlapping_x :=
          negb ((px s + of_int (pw (cfg s)) <=? mv_x m)
                || geb (px s) (mv_x m + mv_w m)) in
        if on_top && overlapping_x then mv_vx m else scan ms'
    end in
  scan (movers s).

(** Lines 599-606: input acceleration, friction, speed limit, gravity. *)
Definition update_velocity (dt : float) (s : Mode) : Mode :=
  let accel := (if hold_left s then - move_accel (cfg s) else 0)
               + (if hold_right s then move_accel (cfg s) else 0) in
  let s := set_vx (vx s + accel * dt) s in
  let fr := if on_ground s then friction_ground (cfg s)
            else friction_air (cfg s) in
  let s :=
    if accel =? 0 then
      if gtb (vx s) 0 then set_vx (py_max 0 (vx s - fr * dt)) s
      else if vx s <? 0 then set_vx (py_min 0 (vx s + fr * dt)) s
      else s
    else s in
  let s := set_vx (clamp (vx s) (- max_speed (cfg s)) (max_speed (cfg s))) s in
  set_vy (vy s + gravity (cfg s) * dt) s.

(** The multiplier of lines 610-614. *)
Definition jump_mult (touched_types : list orb_type) : float :=
  let touching_orb := (0 <? List.length touched_types)%nat in
  if touching_orb then
    if type_in high touched_types then 1.35
    else if type_in normal touched_types then 1.0
    else if type_in small touched_types then 0.6
    else 1.0
  else 1.0.

(** Lines 608-618: the jump. *)
Definition update_jump (s : Mode) : Mode :=
  let touched_types := _orbs_touching_player s in
  let touching_orb := (0 <? List.length touched_types)%nat in
  let mult := jump_mult touched_types in
  let s :=
    if want_jump s && (on_ground s || touching_orb)
    then set_vy (- jump_speed (cfg s) * mult) s
    else s in
  set_want_jump false s.

(** Lines 620-623: every mover advances and turns at the end of its range. *)
Definition advance_mover (dt : float) (m : mover) : mover :=
  let x := mv_x m + mv_vx m * dt in
  let v := if gtb (abs (x - mv_home m)) (mv_range m) then - mv_vx m
           else mv_vx m in
  mkMover x (mv_y m) (mv_w m) (mv_h m) v (mv_home m) (mv_range m).

Definition update_movers (dt : float) (s : Mode) : Mode :=
  set_movers (map (advance_mover dt) (movers s)) s.

(** Lines 625-629: move and resolve on X, then move and resolve on Y. *)
Definition update_position (dt : float) (s : Mode) : Mode :=
  let s := set_on_ground false s in
  let s := set_px (px s + vx s * dt) s in
  let s := _resolve_collisions axis_x s in
  let s := set_py (py s + vy s * dt) s in
  _resolve_collisions axis_y s.

(** Lines 631-633: ride a mover. *)
Definition update_carry (dt : float) (s : Mode) : Mode :=
  let carry_vx := _carry_velocity_from_mover s in
  if negb (carry_vx =? 0) && on_ground s
  then set_px (px s + carry_vx * dt) s
  else s.

(** Lines 635-637: spikes. *)
Definition update_spikes (s : Mode) : Mode :=
  fold_left
    (fun s sp => if body_hits s sp then _game_over "Spikes got you" s else s)
    (spikes s) s.

(** The launch velocity of lines 642-646. *)
Definition spring_velocity (s : Mode) : float :=
  let launch :=
    let gravity_scale := gravity (cfg s) / 1500 in
    q <- py_div 1 (py_max 0.2 gravity_scale) ;;
    Return (SPRING_BOOST * q) in
  match try_except launch (Return (-760)) with
  | Return v => v
  | Raise _ => -760
  end.

(** Lines 639-647: springs. *)
Definition spring_one (s : Mode) (spring : rect) : Mode :=
  if body_hits s spring then
    if geb (vy s) 0 then
      let s := set_vy (spring_velocity s) s in
      let s := set__msg (Some "Spring launched!"%string) s in
      let s := set__msg_timer 1.5 s in
      log spring_launched s
    else s
  else s.

Definition update_springs (s : Mode) : Mode :=
  fold_left spring_one (springs s) s.

(** The loop of lines 649-658 up to its [break]: the coin list with the
    first uncollected coin that touches the body marked, if there is one. *)
Fixpoint collect_first (touch : coin -> bool) (cs : list coin)
    : option (list coin) :=
  match cs with
  | [] => None
  | c :: cs' =>
      if negb (coin_collected c) && touch c
      then Some (mkCoin (coin_id c) (coin_x c) (coin_y c) (coin_r c) true :: cs')
      else option_map (cons c) (collect_first touch cs')
  end.

Definition touches_body (s : Mode) (c : coin) : bool :=
  _circle_rect_overlap (coin_x c) (coin_y c) (coin_r c) (px s) (py s)
    (of_int (pw (cfg s))) (of_int (ph (cfg s))).

Definition update_coins (s : Mode) : Mode :=
  match collect_first (touches_body s) (coins s) with
  | None => s
  | Some cs =>
      let s := set_coins cs s in
      let '(t, s) := time_time s in
      let s := set_buff_end_time (t + BUFF_DURATION_SECONDS) s in
      let s := set_score (score s + 150)%Z s in
      let s := set__msg
                 (Some "Coin collected! Score bonus active for 60s"%string) s in
      let s := set__msg_timer 3 s in
      _save_coins_state s
  end.

(** Lines 660-661. *)
Definition update_fall (s : Mode) : Mode :=
  if gtb (py s) (kill_y (cfg s)) then _game_over "Fell out of bounds" s
  else s.

(** Lines 663-665: the camera eases toward the body. *)
Definition update_camera (dt : float) (s : Mode) : Mode :=
  let tx := px s - of_int (w (cfg s)) * 0.4 in
  let ty := py s - of_int (h (cfg s)) * 0.6 in
  let s := set_cam_x (cam_x s + (tx - cam_x s) * py_min 1 (8 * dt)) s in
  set_cam_y (cam_y s + (ty - cam_y s) * py_min 1 (8 * dt)) s.

(** Lines 667-678: the auto-scrolling variant. *)
Definition update_sidescroller (dt : float) (s : Mode) : Mode :=
  if sidescroller (cfg s) then
    let s := set_cam_x (cam_x s + scroll_speed (cfg s) * dt) s in
    let target_cam_y := py s - of_int (h (cfg s)) * 0.6 in
    let s := set_cam_y
               (cam_y s + (target_cam_y - cam_y s) * py_min 1 (6 * dt)) s in
    if left_wall_kill (cfg s) && (px s <? cam_x s) then
      let old_px := px s in
      let s := set_px (cam_x s) s in
      let s := if existsb (body_hits s) (solids s)
               then _game_over "You got crushed" s else s in
      if gtb (px s) old_px && (vx s <? 0) then set_vx 0 s else s
    else s
  else s.

(** Line 681. *)
Definition bonus_mult (now buff_end : float) : float :=
  if now <? buff_end then 2 else 1.

(** Lines 682-683. *)
Definition computed_score (x elapsed mult : float) : outcome Z :=
  c <- py_int (x * 0.1 + elapsed * of_int 3) ;;
  py_int (of_int c * mult).

(** Lines 680-684: the score. *)
Definition update_score (s : Mode) : outcome Mode :=
  let '(now, s) := time_time s in
  c <- computed_score (px s) (time_alive s) (bonus_mult now (buff_end_time s)) ;;
  Return (set_score (Z.max (score s) c) s).

(** The test of line 686. *)
Definition frontier_near (s : Mode) : bool :=
  gtb (cam_x s + of_int (w (cfg s)) * 1.5) (level_extent_x s).

(** Lines 686-687: keep the world ahead of the camera. *)
Definition update_frontier (s : Mode) : Mode :=
  if frontier_near s then _add_level_chunk s else s.

(** Lines 689-692: the message timer. *)
Definition update_msg (dt : float) (s : Mode) : Mode :=
  if gtb (_msg_timer s) 0 then
    let s := set__msg_timer (_msg_timer s - dt) s in
    if _msg_timer s <=? 0 then set__msg_timer 0 (set__msg None s) else s
  else s.

(** The frame up to the hazard checks, and up to the camera. *)
Definition physics (dt : float) (s : Mode) : Mode :=
  update_carry dt
    (update_position dt (update_movers dt (update_jump (update_velocity dt s)))).

Definition interactions (s : Mode) : Mode :=
  update_fall (update_coins (update_springs (update_spikes s))).

Definition camera (dt : float) (s : Mode) : Mode :=
  update_sidescroller dt (update_camera dt s).

(** [ImageWalkerMode._update] *)
Definition _update (dt : float) (s : Mode) : outcome Mode :=
  s <- update_score (camera dt (interactions (physics dt s))) ;;
  Return (update_msg dt (update_frontier s)).

(* ================================================================== *)
(** * LevelPlayMode and the controller tick *)
(* ================================================================== *)

(** [LevelPlayMode._level_complete]: a blocking screen, then as
    [_game_over] ends. *)
Definition _level_complete (s : Mode) : Mode :=
  log on_exit (stop (log level_complete_screen s)).

(** Lines 867-871: the goal test after the inherited update. *)
Definition finish_check (s : Mode) : Mode :=
  match finish s with
  | None => s
  | Some f =>
      let px1 := px s in
      let py1 := py s in
      let px2 := px1 + of_int (pw (cfg s)) in
      let py2 := py1 + of_int (ph (cfg s)) in
      let fx1 := f_x f in
      let fy1 := f_y f in
      let fx2 := fx1 + of_int (f_size f) in
      let fy2 := fy1 + of_int (f_size f) in
      if (px1 <? fx2) && gtb px2 fx1 && (py1 <? fy2) && gtb py2 fy1
      then _level_complete s
      else s
  end.

(** [LevelPlayMode._update] *)
Definition LevelPlayMode_update (dt : float) (s : Mode) : outcome Mode :=
  s <- _update dt s ;;
  Return (finish_check s).

(** [self._update(dt)]: the override is taken by the objects that have a
    [finish]. *)
Definition self_update (dt : float) (s : Mode) : outcome Mode :=
  match finish s with
  | Some _ => LevelPlayMode_update dt s
  | None => _update dt s
  end.

Inductive key : Set :=
  | K_LEFT | K_a | K_RIGHT | K_d | K_SPACE | K_UP | K_ESCAPE | K_q | K_m
  | K_other.

Inductive event : Set :=
  | KEYDOWN (k : key)
  | KEYUP (k : key)
  | other_event.

Definition newline : string := String (Ascii.ascii_of_nat 10) EmptyString.

(** [export_gameplay], for what it leaves in the object: the message.
    [filename] is the base name of the file written, if the export worked. *)
Definition export_gameplay (filename : option string) (s : Mode) : Mode :=
  let msg :=
    match filename with
    | Some name => ("Exported gameplay to:" ++ newline ++ name)%string
    | None => "Failed to export gameplay"%string
    end in
  set__msg_timer 3 (set__msg (Some msg) s).

(** The event loop of [tick]; [false] when Escape made [tick] return. *)
Fixpoint handle_events (filename : option string) (events : list event)
    (s : Mode) : bool * Mode :=
  match events with
  | [] => (true, s)
  | ev :: events' =>
      match ev with
      | KEYDOWN (K_LEFT | K_a) =>
          handle_events filename events' (set_hold_left true s)
      | KEYDOWN (K_RIGHT | K_d) =>
          handle_events filename events' (set_hold_right true s)
      | KEYDOWN (K_SPACE | K_UP) =>
          handle_events filename events' (set_want_jump true s)
      | KEYDOWN K_ESCAPE => (false, log on_exit (stop (_save_coins_state s)))
      | KEYDOWN K_q =>
          handle_events filename events' (export_gameplay filename s)
      | KEYUP (K_LEFT | K_a) =>
          handle_events filename events' (set_hold_left false s)
      | KEYUP (K_RIGHT | K_d) =>
          handle_events filename events' (set_hold_right false s)
      | KEYUP (K_SPACE | K_UP) =>
          handle_events filename events' (set_want_jump false s)
      | _ => handle_events filename events' s
      end
  end.

(** [ImageWalkerMode.tick], inherited by [LevelPlayMode]: events, then the
    update, then the render. *)
Definition tick (filename : option string) (events : list event) (dt : float)
    (s : Mode) : outcome (bool * Mode) :=
  if negb (running s) then Return (false, s)
  else
    match handle_events filename events s with
    | (false, s) => Return (false, s)
    | (true, s) =>
        let s := set_time_alive (time_alive s + dt) s in
        s <- self_update dt s ;;
        Return (true, log drawn s)
    end.

End ImageWalkerMode.

(* ================================================================== *)
(** * Seeded levels *)
(* ================================================================== *)

(** A number as it sits in the level dictionary. *)
Inductive pynum : Set := PInt (z : Z) | PFloat (f : float).

Definition to_float (n : pynum) : float :=
  match n with
  | PInt z => of_int z
  | PFloat f => f
  end.

(** An entry of ["platforms"]; [lp_spikes] is the key ["spikes"]. *)
Record level_platform : Set := mkLevelPlatform {
  lp_x : pynum; lp_y : Z; lp_w : Z; lp_h : Z; lp_spikes : bool
}.

Record level_finish : Set := mkLevelFinish {
  lf_x : Z; lf_y : Z; lf_size : Z
}.

Record level : Set := mkLevel {
  lv_platforms : list level_platform;
  lv_finish : level_finish;
  lv_width : Z;
  lv_ground_y : Z;
  lv_seed : Z
}.

Section SeededLevels.
Context {G : Type} `{PyRandom G}.

(** The loop [while x < width - 200] of [generate_level_by_index], run for
    at most [fuel] platforms, on the local generator [rnd]. *)
Fixpoint generate_platforms (fuel : nat) (rnd : G) (x width ground_y_ : Z)
    (platforms_ : list level_platform) : option (list level_platform) :=
  if (x <? width - 200)%Z then
    match fuel with
    | O => None
    | S fuel' =>
        let '(w_, rnd) := randint 120 320 rnd in
        let '(gap, rnd) := randint 40 160 rnd in
        let '(r, rnd) := randint (-120) 120 rnd in
        let py_ := (ground_y_ + r)%Z in
        let platforms_ :=
          platforms_ ++ [mkLevelPlatform (PInt x) py_ w_ 48 false] in
        let '(u, rnd) := rng_random rnd in
        let '(platforms_, rnd) :=
          if u <? 0.22 then
            let '(a, rnd) := uniform (0.2 * of_int w_) (0.8 * of_int w_) rnd in
            let sx := of_int x + a in
            let '(sw, rnd) := randint 40 80 rnd in
            (platforms_ ++ [mkLevelPlatform (PFloat sx) (py_ - 20) sw 20 true],
             rnd)
          else (platforms_, rnd) in
        generate_platforms fuel' rnd (x + (w_ + gap))%Z width ground_y_
          platforms_
    end
  else Some platforms_.

Definition generate_level_with (fuel : nat) (idx width ground_y_ : Z)
    : option level :=
  let rnd := Random (idx + 12345)%Z in
  let x := 0%Z in
  let platforms_ := [mkLevelPlatform (PInt x) ground_y_ 300 40 false] in
  let x := (x + 320)%Z in
  match generate_platforms fuel rnd x width ground_y_ platforms_ with
  | None => None
  | Some platforms_ =>
      let finish_x := (width - 80)%Z in
      let finish_y := (ground_y_ - 80)%Z in
      Some (mkLevel platforms_ (mkLevelFinish finish_x finish_y 34)
                    width ground_y_ idx)
  end.

(** Every pass of the loop moves [x] on by at least 160, so this many
    passes are never used up. *)
Definition level_fuel (width : Z) : nat := Z.to_nat (width - 520).

(** [generate_level_by_index] *)
Definition generate_level_by_index (idx width ground_y_ : Z) : option level :=
  generate_level_with (level_fuel width) idx width ground_y_.

(** [LevelPlayMode.__init__], from the object [super().__init__] built. *)
Definition LevelPlayMode_init (s : Mode G) (level_data : level) : Mode G :=
  let s := set_platforms [] s in
  let s := set_movers [] s in
  let s := set_spikes [] s in
  let s := set_orbs [] s in
  let s := set_springs [] s in
  let s := set_level_extent_x (of_int (lv_width level_data)) s in
  let c := cfg s in
  let s := set_cfg
             (mkParams (w c) (h c) (gravity c) (move_accel c) (max_speed c)
                (jump_speed c) (friction_ground c) (friction_air c) (kill_y c)
                (pw c) (ph c) (lv_ground_y level_data) (sidescroller c)
                (scroll_speed c) (left_wall_kill c) (assets c)) s in
  let s :=
    fold_left
      (fun s p =>
         if lp_spikes p then
           set_spikes
             (spikes s ++ [mkRect (to_float (lp_x p)) (of_int (lp_y p))
                             (of_int (lp_w p)) (of_int (lp_h p))]) s
         else
           set_platforms
             (platforms s ++ [mkPlatform (to_float (lp_x p)) (of_int (lp_y p))
                                (of_int (lp_w p)) (of_int (lp_h p)) None]) s)
      (lv_platforms level_data) s in
  let f := lv_finish level_data in
  let s := set_finish
             (Some (mkFinish (of_int (lf_x f)) (of_int (lf_y f)) (lf_size f))) s in
  let s := set_px 100 s in
  let s := set_py (of_int (ground_y (cfg s) - ph (cfg s) - 2)) s in
  let s := set_on_ground true s in
  let s := set_vy 0 s in
  let s := set_vx 0 s in
  let s := set_cam_x (py_max 0 (px s - of_int (w (cfg s)) * 0.4)) s in
  let s := set_cam_y (py_max 0 (py s - of_int (h (cfg s)) * 0.6)) s in
  let s := set_dead false s in
  let s := set_time_alive 0 s in
  set_score 0%Z s.

End SeededLevels.

(* ================================================================== *)
(** * A concrete generator for examples *)
(* ================================================================== *)

(** A 64-bit linear congruential generator standing in for the Mersenne
    Twister, so that the examples below can be run.  Nothing is proved from
    its constants: the theorems hold for every [PyRandom]. *)
Module Lcg.

Definition next (g : Z) : Z :=
  ((g * 6364136223846793005 + 1442695040888963407) mod 2 ^ 64)%Z.

#[export] Instance lcg : PyRandom Z := {|
  Random := fun seed => (seed mod 2 ^ 64)%Z;
  rng_random := fun g =>
    let g' := next g in (of_int (g' / 2 ^ 11) / of_int (2 ^ 53), g');
  rng_randbelow := fun n g =>
    let g' := next g in (((g' / 2 ^ 32) mod n)%Z, g')
|}.

End Lcg.

Unset Implicit Arguments.

(* ================================================================== *)
(** * Vocabulary of the properties *)
(* ================================================================== *)

(** The assignments the frame update makes, as data: which attribute and
    which value, or which call is appended to the trace. *)
Inductive write (G : Type) : Type :=
  | W_px (v : float) | W_py (v : float) | W_vx (v : float) | W_vy (v : float)
  | W_on_ground (v : bool) | W_dead (v : bool) | W_running (v : bool)
  | W_want_jump (v : bool)
  | W_platforms (v : list platform) | W_movers (v : list mover)
  | W_spikes (v : list rect) | W_orbs (v : list orb)
  | W_springs (v : list rect)
  | W_score (v : Z) | W_cam_x (v : float) | W_cam_y (v : float)
  | W_level_extent_x (v : float)
  | W_coins (v : list coin) | W_buff_end_time (v : float)
  | W__msg (v : option string) | W__msg_timer (v : float)
  | W_rng (v : G) | W_clock_reads (v : nat) | W_COIN_ID_COUNTER (v : Z)
  | W_log (c : call).

Arguments W_px {G}.
Arguments W_py {G}.
Arguments W_vx {G}.
Arguments W_vy {G}.
Arguments W_on_ground {G}.
Arguments W_dead {G}.
Arguments W_running {G}.
Arguments W_want_jump {G}.
Arguments W_platforms {G}.
Arguments W_movers {G}.
Arguments W_spikes {G}.
Arguments W_orbs {G}.
Arguments W_springs {G}.
Arguments W_score {G}.
Arguments W_cam_x {G}.
Arguments W_cam_y {G}.
Arguments W_level_extent_x {G}.
Arguments W_coins {G}.
Arguments W_buff_end_time {G}.
Arguments W__msg {G}.
Arguments W__msg_timer {G}.
Arguments W_rng {G}.
Arguments W_clock_reads {G}.
Arguments W_COIN_ID_COUNTER {G}.
Arguments W_log {G}.

Section Vocabulary.
Context {G : Type} `{PyRandom G}.

Definition write_to (wr : write G) (s : Mode G) : Mode G :=
  match wr with
  | W_px v => set_px v s | W_py v => set_py v s
  | W_vx v => set_vx v s | W_vy v => set_vy v s
  | W_on_ground v => set_on_ground v s | W_dead v => set_dead v s
  | W_running v => set_running v s | W_want_jump v => set_want_jump v s
  | W_platforms v => set_platforms v s | W_movers v => set_movers v s
  | W_spikes v => set_spikes v s | W_orbs v => set_orbs v s
  | W_springs v => set_springs v s
  | W_score v => set_score v s | W_cam_x v => set_cam_x v s
  | W_cam_y v => set_cam_y v s
  | W_level_extent_x v => set_level_extent_x v s
  | W_coins v => set_coins v s | W_buff_end_time v => set_buff_end_time v s
  | W__msg v => set__msg v s | W__msg_timer v => set__msg_timer v s
  | W_rng v => set_rng v s | W_clock_reads v => set_clock_reads v s
  | W_COIN_ID_COUNTER v => set_COIN_ID_COUNTER v s
  | W_log c => log c s
  end.

(** The observation [f] does not see the writes in [P]. *)
Definition frames {A} (P : write G -> bool) (f : Mode G -> A) : Prop :=
  forall wr s, P wr = true -> f (write_to wr s) = f s.

(** Calls made when a session saves or ends. *)
Definition session_call (c : call) : bool :=
  match c with
  | save_coins_data _ _ | game_over_screen _ | level_complete_screen
  | on_exit => true
  | _ => false
  end.

Definition is_save (c : call) : bool :=
  match c with save_coins_data _ _ => true | _ => false end.
Definition is_chunk (c : call) : bool :=
  match c with chunk_generated => true | _ => false end.
Definition is_launch (c : call) : bool :=
  match c with spring_launched => true | _ => false end.

(** What each part of the frame writes. *)
Definition velocity_writes (wr : write G) : bool :=
  match wr with W_vx _ | W_vy _ => true | _ => false end.

Definition jump_writes (wr : write G) : bool :=
  match wr with W_vy _ | W_want_jump _ => true | _ => false end.

Definition movers_writes (wr : write G) : bool :=
  match wr with W_movers _ => true | _ => false end.

Definition position_writes (wr : write G) : bool :=
  match wr with
  | W_px _ | W_py _ | W_vx _ | W_vy _ | W_on_ground _ => true
  | _ => false
  end.

Definition carry_writes (wr : write G) : bool :=
  match wr with W_px _ => true | _ => false end.

Definition body_writes (wr : write G) : bool :=
  velocity_writes wr || jump_writes wr || movers_writes wr
  || position_writes wr || carry_writes wr.

Definition end_writes (wr : write G) : bool :=
  match wr with
  | W_dead _ | W_running _ => true
  | W_log c => session_call c
  | _ => false
  end.

Definition spring_writes (wr : write G) : bool :=
  match wr with
  | W_vy _ | W__msg _ | W__msg_timer _ => true
  | W_log c => is_launch c
  | _ => false
  end.

Definition coin_writes (wr : write G) : bool :=
  match wr with
  | W_coins _ | W_clock_reads _ | W_buff_end_time _ | W_score _ | W__msg _
  | W__msg_timer _ => true
  | W_log c => is_save c
  | _ => false
  end.

Definition camera_writes (wr : write G) : bool :=
  match wr with
  | W_cam_x _ | W_cam_y _ | W_px _ | W_vx _ => true
  | _ => end_writes wr
  end.

Definition score_writes (wr : write G) : bool :=
  match wr with
  | W_clock_reads _ | W_score _ => true
  | _ => false
  end.

(** [_add_level_chunk]: what follows the platform and precedes the move
    of the frontier, then all of it but the mark it leaves in the trace. *)
Definition decor_writes (wr : write G) : bool :=
  match wr with
  | W_orbs _ | W_movers _ | W_spikes _ | W_coins _ | W_springs _ | W_rng _
  | W_COIN_ID_COUNTER _ => true
  | W_log c => is_save c
  | _ => false
  end.

Definition world_writes (wr : write G) : bool :=
  match wr with
  | W_platforms _ | W_level_extent_x _ => true
  | _ => decor_writes wr
  end.

Definition msg_writes (wr : write G) : bool :=
  match wr with
  | W__msg _ | W__msg_timer _ => true
  | _ => false
  end.

(** The three numbers a chunk starts with: width, gap and height offset,
    drawn in this order from the global generator. *)
Definition chunk_draws (g : G) : Z * Z * Z * G :=
  let '(w_, g) := randint 180 320 g in
  let '(gap, g) := randint 80 200 g in
  let '(r, g) := randint (-140) 140 g in
  (w_, gap, r, g).

(** [_add_level_chunk] up to and with its call of [_add_platform]. *)
Definition chunk_platform_added (s : Mode G) : Mode G :=
  let '(w_, gap, r, g) := chunk_draws (rng s) in
  let lib_n := lib_surfaces_len (assets (cfg s)) in
  _add_platform (level_extent_x s) (ground_y (cfg s) + r) w_ None
    (if (0 <? lib_n)%Z
     then Some (Z.of_nat (List.length (platforms s)) mod lib_n)%Z
     else None)
    (set_rng g (log chunk_generated s)).

(** The platform it appends. *)
Definition chunk_platform (s : Mode G) : platform :=
  last (platforms (chunk_platform_added s)) (mkPlatform 0 0 0 0 None).

(** The test [_generate_coin] makes between an existing coin and a point:
    nearer than 64, on squared distances. *)
Definition within64 (c : coin) (x y : float) : bool :=
  let dx := coin_x c - x in
  let dy := coin_y c - y in
  dx * dx + dy * dy <? of_int (64 * 64).

(** No uncollected coin of [cs] is nearer than 64 to [(x, y)]. *)
Definition clear_of (cs : list coin) (x y : float) : Prop :=
  forall c, In c cs -> coin_collected c = false -> within64 c x y = false.

(** No two uncollected coins of the list are nearer than 64: each against
    the ones after it, which is the order the coins were appended in. *)
Definition spaced (cs : list coin) : Prop :=
  forall i j ci cj, (i < j)%nat ->
    nth_error cs i = Some ci -> nth_error cs j = Some cj ->
    coin_collected ci = false -> coin_collected cj = false ->
    within64 ci (coin_x cj) (coin_y cj) = false.

Definition touches_orb (s : Mode G) (o : orb) : bool :=
  _circle_rect_overlap (orb_x o) (orb_y o) (orb_r o) (px s) (py s)
    (of_int (pw (cfg s))) (of_int (ph (cfg s))).

(** The body overlaps an orb of type [t]. *)
Definition touching (s : Mode G) (t : orb_type) : Prop :=
  exists o, In o (orbs s) /\ touches_orb s o = true /\ orb_typ o = t.

(** The state a launch leaves. *)
Definition launched (s : Mode G) : Mode G :=
  log spring_launched
    (set__msg_timer 1.5
       (set__msg (Some "Spring launched!"%string)
          (set_vy (spring_velocity s) s))).

(** How many calls of the kind [p] the trace holds. *)
Definition calls (p : call -> bool) (s : Mode G) : nat :=
  List.length (filter p (trace s)).

(** The state at line 680, where the score is computed, and at line 649,
    where the coins are checked. *)
Definition before_score (dt : float) (s : Mode G) : Mode G :=
  camera dt (interactions (physics dt s)).

Definition before_coins (dt : float) (s : Mode G) : Mode G :=
  update_springs (update_spikes (physics dt s)).

(** A coin is collected in the frame. *)
Definition collects (dt : float) (s : Mode G) : bool :=
  match collect_first (touches_body (before_coins dt s))
          (coins (before_coins dt s)) with
  | Some _ => true
  | None => false
  end.

(** The Y half of [_intersect] between the body and a rectangle. *)
Definition y_overlap (s : Mode G) (r : rect) : bool :=
  (py s <? r_y r + r_h r) && gtb (py s + of_int (ph (cfg s))) (r_y r).

(** The state the Y pass of [_resolve_collisions] starts from. *)
Definition before_y_pass (dt : float) (s : Mode G) : Mode G :=
  let s := update_movers dt (update_jump (update_velocity dt s)) in
  let s := set_on_ground false s in
  let s := set_px (px s + vx s * dt) s in
  let s := _resolve_collisions axis_x s in
  set_py (py s + vy s * dt) s.

(** The state at line 639, where the springs are checked. *)
Definition before_springs (dt : float) (s : Mode G) : Mode G :=
  update_spikes (physics dt s).

(** The state after the jump of lines 608-618. *)
Definition after_jump (dt : float) (s : Mode G) : Mode G :=
  update_jump (update_velocity dt s).

(** The score as the specification words it:
    [max(previousScore, floor((x*0.1 + elapsedTime*3) * buffMultiplier))]. *)
Definition spec_score (previous : Z) (x elapsed mult : float) : outcome Z :=
  c <- py_floor ((x * 0.1 + elapsed * of_int 3) * mult) ;;
  Return (Z.max previous c).

End Vocabulary.

(** A save file as [_save_coins_state] writes it. *)
Definition stored_example : list (string * Persistence.json) :=
  [("coins"%string,
    Persistence.JList
      [Persistence.JDict
         [("id"%string, Persistence.JInt 0);
          ("x"%string, Persistence.JFloat 104.5);
          ("y"%string, Persistence.JFloat 335.5);
          ("r"%string, Persistence.JFloat 10);
          ("collected"%string, Persistence.JBool false)]]);
   ("buff_end_time"%string, Persistence.JFloat 1700000060.25)].

(* ================================================================== *)
(** * Scenarios *)
(* ================================================================== *)

Module Scenarios.
Import Lcg.

Definition no_assets : AssetManager := mkAssets 0 (fun _ _ => None).

(** [ImageWalkerMode(screen, assets, ...)] on a window [width] wide and 700
    high, with no image library and no saved coins, while the global
    generator is in the state of [Random(1)] and the clock reads 1000. *)
Definition new_session (width : Z) : option (Mode Z) :=
  ImageWalkerMode_init 50 width 700 no_assets false [] 0 (Random 1%Z)
    (fun _ => 1000) 0 0%Z [].

(** The object the constructor returns for the default window, started. *)
Definition session : Mode Z :=
  ltac:(let v := eval vm_compute in (new_session 1000) in
        match v with Some ?s => exact (start s) end).

(** The frame time of a 60 Hz loop, [16 / 1000.0]. *)
Definition frame : float := 0.016.

(** The session with the frontier put [k] screen widths ahead of the
    camera's right edge [cam_x + w]. *)
Definition frontier_at (k : float) : Mode Z :=
  set_level_extent_x
    (cam_x session + of_int (w (cfg session)) + k * of_int (w (cfg session)))
    session.

(** The session with the body at [x = 105] and a coin buff that runs
    until the clock reads 2000. *)
Definition buffed : Mode Z := set_buff_end_time 2000 (set_px 105 session).

(** Two platforms that share the span [200 <= x <= 300], the first with
    its top 10 lower than the second, and the body falling at 856 onto both
    from just above them. *)
Definition lower_platform : platform := mkPlatform 0 410 300 48 None.
Definition upper_platform : platform := mkPlatform 200 400 300 48 None.
Definition stacked : Mode Z :=
  set_vy 856
    (set_py 350
       (set_px 220
          (set_platforms [lower_platform; upper_platform]
             (set_movers [] (set_orbs [] (set_coins [] session)))))).

(** The session with a spring where [_generate_spring(0)] puts one, under
    the body. *)
Definition on_spring : Mode Z := set_springs [mkRect 0 388 48 12] session.

(** The session with the body moved onto its first coin. *)
Definition at_coin : Mode Z := set_py 330 (set_px 100 session).

(** Level 7 as the level selector generates it. *)
Definition level7 : level :=
  ltac:(let v := eval vm_compute in (generate_level_by_index (G:=Z) 7 2400 400) in
        match v with Some ?l => exact l end).

(** [LevelPlayMode(screen, assets, ..., level7)] on a window [width] wide,
    started. *)
Definition level_session (width : Z) : option (Mode Z) :=
  match new_session width with
  | Some s => Some (start (LevelPlayMode_init s level7))
  | None => None
  end.

Definition level_session_1601 : Mode Z :=
  ltac:(let v := eval vm_compute in (level_session 1601) in
        match v with Some ?s => exact s end).

Definition level_session_2000 : Mode Z :=
  ltac:(let v := eval vm_compute in (level_session 2000) in
        match v with Some ?s => exact s end).

End Scenarios.

(* ================================================================== *)
(** * Order on floats *)
(* ================================================================== *)

Module FloatOrder.

Lemma ltb_irrefl (a : float) : (a <? a) = false.
Proof.
  rewrite ltb_spec. unfold SFltb, SFcompare.
  destruct (Prim2SF a) as [s|s| |s m e]; try destruct s; try reflexivity;
    rewrite Z.compare_refl;
    change (Pos.compare_cont Eq m m) with (m ?= m)%positive;
    rewrite Pos.compare_refl; reflexivity.
Qed.

Lemma leb_ltb_false (a b : float) : (a <=? b) = true -> (b <? a) = false.
Proof.
  rewrite ltb_spec, leb_spec. unfold SFleb, SFltb, SFcompare.
  destruct (Prim2SF a) as [sa|sa| |sa ma ea], (Prim2SF b) as [sb|sb| |sb mb eb];
    try destruct sa; try destruct sb; try discriminate; try reflexivity;
    rewrite (Z.compare_antisym ea eb);
    destruct (ea ?= eb)%Z; simpl; try discriminate; try reflexivity;
    change (Pos.compare_cont Eq ma mb) with (ma ?= mb)%positive;
    change (Pos.compare_cont Eq mb ma) with (mb ?= ma)%positive;
    rewrite (Pos.compare_antisym ma mb);
    destruct (ma ?= mb)%positive; simpl; try discriminate; reflexivity.
Qed.

Lemma ltb_leb (a b : float) : (a <? b) = true -> (a <=? b) = true.
Proof.
  rewrite ltb_spec, leb_spec. unfold SFleb, SFltb.
  destruct (SFcompare (Prim2SF a) (Prim2SF b)) as [[| |]|];
    try discriminate; reflexivity.
Qed.

Lemma ltb_asym (a b : float) : (a <? b) = true -> (b <? a) = false.
Proof. intros Hab. apply leb_ltb_false, ltb_leb, Hab. Qed.

End FloatOrder.
Import FloatOrder.

Import Lcg.

#[export] Instance lcg_spec : PyRandomSpec Z.
Proof.
  constructor. intros n g Hn. simpl. apply Z.mod_pos_bound. exact Hn.
Qed.

(* ================================================================== *)
(** * Persistence: loading the collectible state *)
(* ================================================================== *)

Section LoadCoinsData.
Import Persistence.
Variable float_of_string : string -> option float.

Lemma load_coins_data_returns (f : save_file) :
  exists v, load_coins_data float_of_string f = Return v.
Proof.
  unfold load_coins_data.
  destruct (load_coins_data_try float_of_string f) as [[v|]|e]; simpl;
    eauto.
Qed.

Lemma load_not_a_dict (data : json) :
  (forall d, data <> JDict d) ->
  load_coins_data float_of_string (Stored data) = Return default_coins_data.
Proof.
  intros Hd. destruct data; try reflexivity. exfalso. eapply Hd. reflexivity.
Qed.

(** C9.  [load_coins_data] returns in every case and never raises; for a
    missing, unreadable or corrupt file, and for stored data that is not an
    object, it returns the empty default [{"coins": [], "buff_end_time":
    0.0}]; for a stored object with a coins entry and a numeric buff end it
    returns exactly those two. *)
Theorem load_coins_data_falls_back (d : list (string * json)) (c : json)
    (t : float) :
  dict_get "coins" d = Some c ->
  dict_get "buff_end_time" d = Some (JFloat t) ->
  (forall f, exists v, load_coins_data float_of_string f = Return v)
  /\ load_coins_data float_of_string Missing = Return default_coins_data
  /\ load_coins_data float_of_string Unreadable = Return default_coins_data
  /\ load_coins_data float_of_string Corrupt = Return default_coins_data
  /\ (forall data, (forall d', data <> JDict d') ->
        load_coins_data float_of_string (Stored data)
        = Return default_coins_data)
  /\ cd_coins default_coins_data = JList []
  /\ cd_buff_end_time default_coins_data = 0
  /\ load_coins_data float_of_string (Stored (JDict d))
     = Return (mkCoinsData c t).
Proof.
  intros Hc Ht.
  split; [exact load_coins_data_returns|].
  repeat (split; [reflexivity|]).
  split; [exact load_not_a_dict|].
  repeat (split; [reflexivity|]).
  unfold load_coins_data, load_coins_data_try, py_get. simpl.
  rewrite Hc, Ht. reflexivity.
Qed.

End LoadCoinsData.

Lemma load_coins_data_falls_back_witness :
  Persistence.load_coins_data (fun _ => None)
    (Persistence.Stored (Persistence.JDict stored_example))
  = Return (Persistence.mkCoinsData
              (Persistence.JList
                 [Persistence.JDict
                    [("id"%string, Persistence.JInt 0);
                     ("x"%string, Persistence.JFloat 104.5);
                     ("y"%string, Persistence.JFloat 335.5);
                     ("r"%string, Persistence.JFloat 10);
                     ("collected"%string, Persistence.JBool false)]])
              1700000060.25).
Proof.
  apply (load_coins_data_falls_back (fun _ => None) stored_example _ _);
    reflexivity.
Defined.

(* ================================================================== *)
(** * Seeded levels are a function of the seed *)
(* ================================================================== *)

Section Determinism.
Context {G : Type} `{PyRandomSpec G}.

Lemma randint_range (a b : Z) (g : G) :
  (a <= b)%Z -> (a <= fst (randint a b g) <= b)%Z.
Proof.
  intros Hab. unfold randint.
  pose proof (@randbelow_range G _ _ (b - a + 1)%Z g ltac:(lia)) as Hr.
  destruct (rng_randbelow (b - a + 1)%Z g) as [k g']. simpl in *. lia.
Qed.

Lemma generate_platforms_enough (width ground_y_ : Z) (fuel : nat) :
  forall (rnd : G) (x : Z) (acc : list level_platform),
    (width - 200 - x <= Z.of_nat fuel)%Z ->
    exists l, forall fuel',
      (width - 200 - x <= Z.of_nat fuel')%Z ->
      generate_platforms fuel' rnd x width ground_y_ acc = Some l.
Proof.
  induction fuel as [|fuel IH]; intros rnd x acc Hm.
  - exists acc. intros fuel' _.
    destruct fuel'; simpl;
      destruct (x <? width - 200)%Z eqn:E; try reflexivity;
      apply Z.ltb_lt in E; lia.
  - destruct (x <? width - 200)%Z eqn:E.
    + apply Z.ltb_lt in E.
      pose proof (randint_range 120 320 rnd ltac:(lia)) as R1.
      destruct (randint 120 320 rnd) as [w_ r1] eqn:E1.
      pose proof (randint_range 40 160 r1 ltac:(lia)) as R2.
      destruct (randint 40 160 r1) as [gap r2] eqn:E2.
      destruct (randint (-120) 120 r2) as [r r3] eqn:E3.
      destruct (rng_random r3) as [u r4] eqn:E4.
      simpl in R1, R2.
      destruct (u <? 0.22) eqn:E5.
      * destruct (uniform (0.2 * of_int w_) (0.8 * of_int w_) r4) as [a r5] eqn:E6.
        destruct (randint 40 80 r5) as [sw r6] eqn:E7.
        destruct (IH r6 (x + (w_ + gap))%Z
                    ((acc ++ [mkLevelPlatform (PInt x) (ground_y_ + r) w_ 48 false])
                       ++ [mkLevelPlatform (PFloat (of_int x + a))
                             (ground_y_ + r - 20) sw 20 true])
                    ltac:(lia)) as [l Hl].
        exists l. intros fuel' Hf. destruct fuel' as [|fuel']; [lia|].
        simpl. apply Z.ltb_lt in E. rewrite E, E1, E2, E3, E4, E5, E6, E7.
        apply Hl. lia.
      * destruct (IH r4 (x + (w_ + gap))%Z
                    (acc ++ [mkLevelPlatform (PInt x) (ground_y_ + r) w_ 48 false])
                    ltac:(lia)) as [l Hl].
        exists l. intros fuel' Hf. destruct fuel' as [|fuel']; [lia|].
        simpl. apply Z.ltb_lt in E. rewrite E, E1, E2, E3, E4, E5.
        apply Hl. lia.
    + exists acc. intros fuel' _. destruct fuel'; simpl; rewrite E; reflexivity.
Qed.

(** C1.  For every seed, width and ground height,
    [generate_level_by_index] returns, and every call with these arguments
    returns the same level: the same list of platforms, spike-flagged ones
    included, and the same Finish.  The generator it draws from is built
    from the seed alone, and the number of loop passes allowed does not
    matter once it is enough. *)
Theorem generate_level_by_index_deterministic (S_ width ground_y_ : Z) :
  exists lvl : level,
    generate_level_by_index S_ width ground_y_ = Some lvl
    /\ (forall fuel, (level_fuel width <= fuel)%nat ->
          generate_level_with fuel S_ width ground_y_ = Some lvl)
    /\ lv_seed lvl = S_ /\ lv_width lvl = width
    /\ lv_finish lvl = mkLevelFinish (width - 80) (ground_y_ - 80) 34.
Proof.
  destruct (generate_platforms_enough width ground_y_ (level_fuel width)
              (Random (S_ + 12345)%Z) 320
              [mkLevelPlatform (PInt 0) ground_y_ 300 40 false])
    as [l Hl].
  { unfold level_fuel. lia. }
  exists (mkLevel l (mkLevelFinish (width - 80) (ground_y_ - 80) 34)
                  width ground_y_ S_).
  assert (Hall : forall fuel, (level_fuel width <= fuel)%nat ->
            generate_level_with fuel S_ width ground_y_
            = Some (mkLevel l (mkLevelFinish (width - 80) (ground_y_ - 80) 34)
                            width ground_y_ S_)).
  { intros fuel Hf. unfold generate_level_with. simpl.
    rewrite Hl; [reflexivity|]. unfold level_fuel in Hf. lia. }
  split; [apply Hall; lia|]. split; [exact Hall|]. repeat split.
Qed.

End Determinism.

(* ================================================================== *)
(** * Coin spacing *)
(* ================================================================== *)

Section CoinSpacing.
Context {G : Type} `{PyRandom G}.

Lemma coin_too_close_cons (c : coin) (cs : list coin) (x y : float) :
  coin_too_close (c :: cs) x y
  = if coin_collected c then coin_too_close cs x y
    else if within64 c x y then true else coin_too_close cs x y.
Proof. reflexivity. Qed.

Lemma coin_too_close_clear (cs : list coin) (x y : float) :
  coin_too_close cs x y = false <-> clear_of cs x y.
Proof.
  unfold clear_of. induction cs as [|c cs [IH1 IH2]].
  - split; [intros _ c []|reflexivity].
  - rewrite coin_too_close_cons.
    destruct (coin_collected c) eqn:Ec; [|destruct (within64 c x y) eqn:Ew].
    + split.
      * intros Hcs d [<-|Hd] Hu; [congruence|auto].
      * intros Hcs. apply IH2. intros d Hd Hu. apply Hcs; simpl; auto.
    + split; [discriminate|]. intros Hcs.
      rewrite <- Ew. apply Hcs; simpl; auto.
    + split.
      * intros Hcs d [<-|Hd] Hu; auto.
      * intros Hcs. apply IH2. intros d Hd Hu. apply Hcs; simpl; auto.
Qed.

Lemma spaced_snoc (cs : list coin) (c : coin) :
  spaced cs -> clear_of cs (coin_x c) (coin_y c) -> spaced (cs ++ [c]).
Proof.
  intros Hs Hc i j ci cj Hij Hi Hj Hui Huj.
  assert (Hjl : (j < List.length (cs ++ [c]))%nat)
    by (apply nth_error_Some; congruence).
  rewrite length_app in Hjl. simpl in Hjl.
  rewrite nth_error_app1 in Hi by lia.
  destruct (Nat.eq_dec j (List.length cs)) as [->|Hne].
  - rewrite nth_error_app2, Nat.sub_diag in Hj by lia.
    simpl in Hj. injection Hj as <-.
    apply Hc; [eapply nth_error_In; eassumption|assumption].
  - rewrite nth_error_app1 in Hj by lia. apply (Hs i j ci cj); assumption.
Qed.

(** C5.  If no two uncollected coins are nearer than 64, this still holds
    after [_generate_coin]: the new coin is appended when no uncollected
    coin is nearer than 64 to it, and otherwise nothing is created and the
    state is unchanged. *)
Theorem generate_coin_keeps_spacing (x y : float) (s : Mode G) :
  spaced (coins s) ->
  spaced (coins (snd (_generate_coin x y s)))
  /\ (clear_of (coins s) x y ->
      exists c, fst (_generate_coin x y s) = Some c
        /\ coins (snd (_generate_coin x y s)) = coins s ++ [c]
        /\ coin_x c = x /\ coin_y c = y /\ coin_collected c = false)
  /\ (~ clear_of (coins s) x y -> _generate_coin x y s = (None, s)).
Proof.
  intros Hs. unfold _generate_coin.
  destruct (coin_too_close (coins s) x y) eqn:E.
  - split; [exact Hs|]. split.
    + intros Hc. apply coin_too_close_clear in Hc. congruence.
    + reflexivity.
  - apply coin_too_close_clear in E. simpl. split; [|split].
    + apply spaced_snoc; assumption.
    + intros _. eexists. repeat split.
    + intros Hn. contradiction.
Qed.

End CoinSpacing.

(* ================================================================== *)
(** * Coins, buff and jump *)
(* ================================================================== *)

Section Steps.
Context {G : Type} `{PyRandom G}.

(** C6.  When the coin loop collects a coin and the clock reads [T], the
    buff end becomes exactly [T + 60]; the score multiplier is then 2 at
    every time in [T, T + 60) and 1 at or after [T + 60]. *)
Theorem coin_buff_window (s : Mode G) (cs : list coin) (T : float) :
  collect_first (touches_body s) (coins s) = Some cs ->
  clock s (clock_reads s) = T ->
  buff_end_time (update_coins s) = T + 60
  /\ coins (update_coins s) = cs
  /\ (forall t, (T <=? t) = true -> (t <? T + 60) = true ->
        bonus_mult t (buff_end_time (update_coins s)) = 2)
  /\ (forall t, (T + 60 <=? t) = true ->
        bonus_mult t (buff_end_time (update_coins s)) = 1).
Proof.
  intros Hc HT. unfold update_coins. rewrite Hc. simpl. rewrite HT.
  unfold BUFF_DURATION_SECONDS.
  split; [reflexivity|]. split; [reflexivity|]. split.
  - intros t _ Ht. unfold bonus_mult. rewrite Ht. reflexivity.
  - intros t Ht. unfold bonus_mult. rewrite (leb_ltb_false _ _ Ht). reflexivity.
Qed.

Lemma type_in_In (t : orb_type) (ts : list orb_type) :
  type_in t ts = true <-> In t ts.
Proof.
  unfold type_in. rewrite existsb_exists. split.
  - intros [u [Hu E]]. destruct t, u; try discriminate; exact Hu.
  - intros Ht. exists t. split; [exact Ht|]. destruct t; reflexivity.
Qed.

Lemma touched_fold (s : Mode G) (os : list orb) :
  forall (acc : list orb_type) (t : orb_type),
    In t (fold_left
            (fun types o =>
               if _circle_rect_overlap (orb_x o) (orb_y o) (orb_r o) (px s) (py s)
                    (of_int (pw (cfg s))) (of_int (ph (cfg s)))
               then (if type_in (orb_typ o) types then types
                     else types ++ [orb_typ o])
               else types) os acc)
    <-> In t acc
        \/ exists o, In o os /\ touches_orb s o = true /\ orb_typ o = t.
Proof.
  induction os as [|o os IH]; intros acc t; simpl.
  - split; [auto|]. intros [Ht|[o [[] _]]]. exact Ht.
  - destruct (IH (if _circle_rect_overlap (orb_x o) (orb_y o) (orb_r o)
                       (px s) (py s) (of_int (pw (cfg s))) (of_int (ph (cfg s)))
                  then (if type_in (orb_typ o) acc then acc
                        else acc ++ [orb_typ o])
                  else acc) t) as [IH1 IH2].
    fold (touches_orb s o) in *.
    split.
    + intros Hin. destruct (IH1 Hin) as [Ht|[o' [Ho' Hr]]].
      * destruct (touches_orb s o) eqn:E; [|auto].
        destruct (type_in (orb_typ o) acc) eqn:E2; [auto|].
        apply in_app_or in Ht. destruct Ht as [Ht|[<-|[]]]; [auto|].
        right. exists o. auto.
      * right. exists o'. tauto.
    + intros [Ht|[o' [[<-|Ho'] [Hr Ht]]]]; apply IH2.
      * left. destruct (touches_orb s o); [|exact Ht].
        destruct (type_in (orb_typ o) acc); [exact Ht|].
        apply in_or_app. auto.
      * left. rewrite Hr. destruct (type_in (orb_typ o) acc) eqn:E2.
        -- apply type_in_In in E2. congruence.
        -- apply in_or_app. right. left. exact Ht.
      * right. exists o'. auto.
Qed.

Lemma touched_touching (s : Mode G) (t : orb_type) :
  In t (_orbs_touching_player s) <-> touching s t.
Proof.
  unfold _orbs_touching_player, touching.
  destruct (touched_fold s (orbs s) [] t) as [H1 H2]. split.
  - intros Hin. destruct (H1 Hin) as [[]|Ho]. exact Ho.
  - intros Ho. apply H2. right. exact Ho.
Qed.

Lemma type_in_touching (s : Mode G) (t : orb_type) :
  type_in t (_orbs_touching_player s) = true <-> touching s t.
Proof.
  destruct (type_in_In t (_orbs_touching_player s)) as [A B].
  destruct (touched_touching s t) as [C D]. split; auto.
Qed.

Lemma type_in_not_touching (s : Mode G) (t : orb_type) :
  type_in t (_orbs_touching_player s) = false <-> ~ touching s t.
Proof.
  destruct (type_in_touching s t) as [A B].
  destruct (type_in t (_orbs_touching_player s)); split; intros; auto;
    try discriminate.
  - exfalso. auto.
  - intros Ht. apply B in Ht. discriminate.
Qed.

Lemma touching_nonempty (s : Mode G) :
  (0 <? List.length (_orbs_touching_player s))%nat = true
  <-> exists t, touching s t.
Proof.
  split.
  - intros Hl. destruct (_orbs_touching_player s) as [|t ts] eqn:E;
      [discriminate|].
    exists t. apply touched_touching. rewrite E. left. reflexivity.
  - intros [t Ht]. apply touched_touching in Ht.
    destruct (_orbs_touching_player s); [destruct Ht|reflexivity].
Qed.

Theorem jump_impulse (s : Mode G) :
  want_jump (update_jump s) = false
  /\ (want_jump s = true ->
      (on_ground s = true \/ exists t, touching s t) ->
      exists mult,
        vy (update_jump s) = - jump_speed (cfg s) * mult
        /\ ((touching s high /\ mult = 1.35)
            \/ (~ touching s high /\ touching s normal /\ mult = 1.0)
            \/ (~ touching s high /\ ~ touching s normal
                /\ touching s small /\ mult = 0.6)
            \/ ((forall t, ~ touching s t) /\ mult = 1.0)))
  /\ ((want_jump s = false
       \/ (on_ground s = false /\ forall t, ~ touching s t)) ->
      vy (update_jump s) = vy s).
Proof.
  unfold update_jump. split; [|split].
  - destruct (want_jump s && _); reflexivity.
  - intros Hw Hg.
    assert (Hc : want_jump s
                 && (on_ground s
                     || (0 <? List.length (_orbs_touching_player s))%nat) = true).
    { rewrite Hw. simpl. destruct Hg as [->|Ht]; [reflexivity|].
      apply touching_nonempty in Ht. rewrite Ht. apply orb_true_r. }
    rewrite Hc. simpl.
    exists (jump_mult (_orbs_touching_player s)). split; [reflexivity|].
    unfold jump_mult.
    destruct (0 <? List.length (_orbs_touching_player s))%nat eqn:En.
    + destruct (type_in high (_orbs_touching_player s)) eqn:Eh.
      { left. split; [apply type_in_touching, Eh|reflexivity]. }
      apply type_in_not_touching in Eh.
      destruct (type_in normal (_orbs_touching_player s)) eqn:Em.
      { right. left. split; [exact Eh|].
        split; [apply type_in_touching, Em|reflexivity]. }
      apply type_in_not_touching in Em.
      destruct (type_in small (_orbs_touching_player s)) eqn:Es.
      { right. right. left. repeat split; try assumption.
        apply type_in_touching, Es. }
      apply type_in_not_touching in Es.
      right. right. right. split; [|reflexivity].
      intros [ | | ]; assumption.
    + right. right. right. split; [|reflexivity].
      intros t Ht.
      assert (Hex : exists t, touching s t) by (exists t; exact Ht).
      apply touching_nonempty in Hex. congruence.
  - intros [Hw|[Hg Hn]].
    + rewrite Hw. reflexivity.
    + rewrite Hg. simpl.
      destruct (0 <? List.length (_orbs_touching_player s))%nat eqn:En.
      * apply touching_nonempty in En. destruct En as [t Ht].
        exfalso. exact (Hn t Ht).
      * rewrite andb_false_r. reflexivity.
Qed.

End Steps.

(* ================================================================== *)
(** * Springs *)
(* ================================================================== *)

Section Springs.
Context {G : Type} `{PyRandom G}.

Lemma spring_velocity_default (s : Mode G) :
  gravity (cfg s) = 1500 -> spring_velocity s = -760.
Proof. intros Hg. unfold spring_velocity. rewrite Hg. reflexivity. Qed.

Lemma spring_one_cases (s : Mode G) (sp : rect) :
  spring_one s sp
  = if body_hits s sp && geb (vy s) 0 then launched s else s.
Proof.
  unfold spring_one, launched.
  destruct (body_hits s sp), (geb (vy s) 0); reflexivity.
Qed.

Lemma springs_rising (sps : list rect) (s : Mode G) :
  geb (vy s) 0 = false -> fold_left spring_one sps s = s.
Proof.
  intros Hv. induction sps as [|sp sps IH]; simpl; [reflexivity|].
  rewrite spring_one_cases, Hv, andb_false_r. exact IH.
Qed.

Lemma springs_no_hit (sps : list rect) (s : Mode G) :
  (forall sp, In sp sps -> body_hits s sp = false) ->
  fold_left spring_one sps s = s.
Proof.
  induction sps as [|sp sps IH]; simpl; intros Hn; [reflexivity|].
  rewrite spring_one_cases, (Hn sp) by auto. simpl. apply IH.
  intros sp' Hsp'. apply Hn. auto.
Qed.

Lemma springs_fold (sps : list rect) (s : Mode G) :
  gravity (cfg s) = 1500 ->
  fold_left spring_one sps s
  = if existsb (body_hits s) sps && geb (vy s) 0 then launched s else s.
Proof.
  intros Hg. destruct (geb (vy s) 0) eqn:Hv.
  - rewrite andb_true_r. induction sps as [|sp sps IH]; simpl; [reflexivity|].
    rewrite spring_one_cases, Hv, andb_true_r.
    destruct (body_hits s sp); simpl; [|exact IH].
    apply springs_rising. unfold launched. simpl.
    rewrite spring_velocity_default by exact Hg. reflexivity.
  - rewrite andb_false_r. apply springs_rising. exact Hv.
Qed.

Theorem spring_launch (s : Mode G) :
  gravity (cfg s) = 1500 ->
  (exists tl, trace (update_springs s) = trace s ++ tl
              /\ (tl = [] \/ tl = [spring_launched]))
  /\ ((exists sp, In sp (springs s) /\ body_hits s sp = true) ->
      geb (vy s) 0 = true ->
      vy (update_springs s) = -760
      /\ (vy (update_springs s) <? 0) = true
      /\ trace (update_springs s) = trace s ++ [spring_launched])
  /\ (forall jump left right,
        vy (update_springs
              (set_hold_right right (set_hold_left left (set_want_jump jump s))))
        = vy (update_springs s)).
Proof.
  intros Hg. unfold update_springs.
  split; [|split].
  - rewrite springs_fold by exact Hg.
    destruct (existsb (body_hits s) (springs s) && geb (vy s) 0).
    + exists [spring_launched]. split; [reflexivity|]. right. reflexivity.
    + exists []. split; [symmetry; apply app_nil_r|]. left. reflexivity.
  - intros [sp [Hin Hhit]] Hv. rewrite springs_fold by exact Hg.
    assert (He : existsb (body_hits s) (springs s) = true).
    { apply existsb_exists. exists sp. auto. }
    rewrite He, Hv. simpl. rewrite spring_velocity_default by exact Hg.
    repeat split.
  - intros jump left right.
    rewrite !springs_fold by (simpl; exact Hg).
    simpl.
    change (existsb (body_hits (set_hold_right right
              (set_hold_left left (set_want_jump jump s)))) (springs s))
      with (existsb (body_hits s) (springs s)).
    destruct (existsb (body_hits s) (springs s) && geb (vy s) 0); reflexivity.
Qed.

End Springs.

(* ================================================================== *)
(** * What a step leaves alone *)
(* ================================================================== *)

Section Writes.
Context {G : Type} `{PyRandom G}.

Section Walk.
Context {A : Type} (f : Mode G -> A).

Lemma walk_let_state (e : Mode G) (b : Mode G -> Mode G) (u v : A) :
  f e = u -> (forall s1, f s1 = u -> f (b s1) = v) ->
  f (let x := e in b x) = v.
Proof. intros He Hb. apply Hb, He. Qed.

Lemma walk_let_value {B} (e : B) (b : B -> Mode G) (v : A) :
  (forall x, f (b x) = v) -> f (let x := e in b x) = v.
Proof. intros Hb. apply Hb. Qed.

Lemma walk_rand {B} (P : write G -> bool) (g : G -> B * G) (e : Mode G)
    (k : B -> Mode G -> Mode G) (u v : A) :
  frames P f -> (forall g', P (W_rng g') = true) ->
  f e = u -> (forall a s1, f s1 = u -> f (k a s1) = v) ->
  f (let '(a, s1) := rand g e in k a s1) = v.
Proof.
  intros Hf HP He Hk. unfold rand. destruct (g (rng e)) as [a g'].
  apply Hk. rewrite <- He. apply (Hf (W_rng g')), HP.
Qed.

Lemma frames_sub (P Q : write G -> bool) :
  (forall wr, Q wr = true -> P wr = true) -> frames P f -> frames Q f.
Proof. intros Hsub Hf wr s Hw. apply Hf, Hsub, Hw. Qed.

Lemma walk_fold {X} (step : Mode G -> X -> Mode G) (l : list X) :
  (forall s x, f (step s x) = f s) ->
  forall s, f (fold_left step l s) = f s.
Proof.
  intros Hstep. induction l as [|x l IH]; intros s; simpl; [reflexivity|].
  rewrite IH. apply Hstep.
Qed.

End Walk.
End Writes.

(** Drop the assignment at the root of [f (set_... v s) = _], when the
    frame hypothesis [Hf] covers it. *)
Ltac skip_write Hf :=
  lazymatch goal with
  | |- _ (set_px ?v ?s) = _ => refine (eq_trans (Hf (W_px v) s eq_refl) _)
  | |- _ (set_py ?v ?s) = _ => refine (eq_trans (Hf (W_py v) s eq_refl) _)
  | |- _ (set_vx ?v ?s) = _ => refine (eq_trans (Hf (W_vx v) s eq_refl) _)
  | |- _ (set_vy ?v ?s) = _ => refine (eq_trans (Hf (W_vy v) s eq_refl) _)
  | |- _ (set_on_ground ?v ?s) = _ =>
      refine (eq_trans (Hf (W_on_ground v) s eq_refl) _)
  | |- _ (set_dead ?v ?s) = _ => refine (eq_trans (Hf (W_dead v) s eq_refl) _)
  | |- _ (set_running ?v ?s) = _ =>
      refine (eq_trans (Hf (W_running v) s eq_refl) _)
  | |- _ (set_want_jump ?v ?s) = _ =>
      refine (eq_trans (Hf (W_want_jump v) s eq_refl) _)
  | |- _ (set_platforms ?v ?s) = _ =>
      refine (eq_trans (Hf (W_platforms v) s eq_refl) _)
  | |- _ (set_movers ?v ?s) = _ =>
      refine (eq_trans (Hf (W_movers v) s eq_refl) _)
  | |- _ (set_spikes ?v ?s) = _ =>
      refine (eq_trans (Hf (W_spikes v) s eq_refl) _)
  | |- _ (set_orbs ?v ?s) = _ => refine (eq_trans (Hf (W_orbs v) s eq_refl) _)
  | |- _ (set_springs ?v ?s) = _ =>
      refine (eq_trans (Hf (W_springs v) s eq_refl) _)
  | |- _ (set_score ?v ?s) = _ =>
      refine (eq_trans (Hf (W_score v) s eq_refl) _)
  | |- _ (set_cam_x ?v ?s) = _ =>
      refine (eq_trans (Hf (W_cam_x v) s eq_refl) _)
  | |- _ (set_cam_y ?v ?s) = _ =>
      refine (eq_trans (Hf (W_cam_y v) s eq_refl) _)
  | |- _ (set_level_extent_x ?v ?s) = _ =>
      refine (eq_trans (Hf (W_level_extent_x v) s eq_refl) _)
  | |- _ (set_coins ?v ?s) = _ =>
      refine (eq_trans (Hf (W_coins v) s eq_refl) _)
  | |- _ (set_buff_end_time ?v ?s) = _ =>
      refine (eq_trans (Hf (W_buff_end_time v) s eq_refl) _)
  | |- _ (set__msg ?v ?s) = _ => refine (eq_trans (Hf (W__msg v) s eq_refl) _)
  | |- _ (set__msg_timer ?v ?s) = _ =>
      refine (eq_trans (Hf (W__msg_timer v) s eq_refl) _)
  | |- _ (set_rng ?v ?s) = _ => refine (eq_trans (Hf (W_rng v) s eq_refl) _)
  | |- _ (set_clock_reads ?v ?s) = _ =>
      refine (eq_trans (Hf (W_clock_reads v) s eq_refl) _)
  | |- _ (set_COIN_ID_COUNTER ?v ?s) = _ =>
      refine (eq_trans (Hf (W_COIN_ID_COUNTER v) s eq_refl) _)
  | |- _ (log ?c ?s) = _ => refine (eq_trans (Hf (W_log c) s eq_refl) _)
  | |- _ (_save_coins_state ?s) = _ =>
      refine (eq_trans
                (Hf (W_log (save_coins_data (coins s) (buff_end_time s)))
                    s eq_refl) _)
  end.

(** Walk down the state expression at the root of a goal [f e = v]:
    through [let], [if], draws from the generator and the writes that the
    frame hypothesis [Hf] covers; [more] handles calls of other methods. *)
Ltac frame_walk Hf more :=
  repeat first
    [ lazymatch goal with
      | |- _ (let x := _ in _) = _ =>
          first [ eapply walk_let_state; [|intros ? ?]
                | apply walk_let_value; intros ? ]
      | |- _ (if ?c then _ else _) = _ => destruct c
      | |- _ (let '(a, s1) := rand _ _ in _) = _ =>
          eapply walk_rand;
          [exact Hf | intros ?; reflexivity | | intros ? ? ?]
      end
    | skip_write Hf
    | more
    | match goal with
      | |- _ ?s = _ => is_var s; first [eassumption | reflexivity]
      | |- _ = ?u => first [is_evar u | assert_fails (has_evar u)]; reflexivity
      end ].

(** Discharge [frames P f] for an observation that projects attributes the
    writes in [P] do not touch. *)
Ltac frames_tac :=
  let wr := fresh "wr" in
  let s := fresh "s" in
  let Hw := fresh "Hw" in
  intros wr s Hw; destruct wr; try discriminate Hw; reflexivity.

Section Phases.
Context {G : Type} `{PyRandom G}.
Context {A : Type} (f : Mode G -> A).

Lemma update_velocity_frame (dt : float) (s : Mode G) :
  frames velocity_writes f -> f (update_velocity dt s) = f s.
Proof.
  intros Hf. unfold update_velocity. frame_walk Hf fail.
Qed.

Lemma update_jump_frame (s : Mode G) :
  frames jump_writes f -> f (update_jump s) = f s.
Proof. intros Hf. unfold update_jump. frame_walk Hf fail. Qed.

Lemma update_movers_frame (dt : float) (s : Mode G) :
  frames movers_writes f -> f (update_movers dt s) = f s.
Proof. intros Hf. unfold update_movers. frame_walk Hf fail. Qed.

Lemma resolve_one_frame (a : axis) (s : Mode G) (pl : rect) :
  frames position_writes f -> f (resolve_one a s pl) = f s.
Proof.
  intros Hf. unfold resolve_one. destruct a; frame_walk Hf fail.
Qed.

Lemma resolve_collisions_frame (a : axis) (s : Mode G) :
  frames position_writes f -> f (_resolve_collisions a s) = f s.
Proof.
  intros Hf. unfold _resolve_collisions. apply walk_fold.
  intros s1 pl. apply resolve_one_frame, Hf.
Qed.

Lemma update_position_frame (dt : float) (s : Mode G) :
  frames position_writes f -> f (update_position dt s) = f s.
Proof.
  intros Hf. unfold update_position.
  frame_walk Hf ltac:(rewrite resolve_collisions_frame by exact Hf).
Qed.

Lemma update_carry_frame (dt : float) (s : Mode G) :
  frames carry_writes f -> f (update_carry dt s) = f s.
Proof. intros Hf. unfold update_carry. frame_walk Hf fail. Qed.

Lemma physics_frame (dt : float) (s : Mode G) :
  frames body_writes f -> f (physics dt s) = f s.
Proof.
  intros Hf. unfold physics.
  rewrite update_carry_frame, update_position_frame, update_movers_frame,
    update_jump_frame, update_velocity_frame;
    try reflexivity;
    (eapply frames_sub; [|exact Hf]); intros wr Hw; unfold body_writes;
    destruct wr; try discriminate Hw; reflexivity.
Qed.

Lemma game_over_frame (reason : string) (s : Mode G) :
  frames end_writes f -> f (_game_over reason s) = f s.
Proof.
  intros Hf. unfold _game_over, stop. frame_walk Hf fail.
Qed.

Lemma update_spikes_frame (s : Mode G) :
  frames end_writes f -> f (update_spikes s) = f s.
Proof.
  intros Hf. unfold update_spikes. apply walk_fold. intros s1 sp.
  frame_walk Hf ltac:(rewrite game_over_frame by exact Hf).
Qed.

Lemma update_fall_frame (s : Mode G) :
  frames end_writes f -> f (update_fall s) = f s.
Proof.
  intros Hf. unfold update_fall.
  frame_walk Hf ltac:(rewrite game_over_frame by exact Hf).
Qed.

Lemma update_springs_frame (s : Mode G) :
  frames spring_writes f -> f (update_springs s) = f s.
Proof.
  intros Hf. unfold update_springs. apply walk_fold. intros s1 sp.
  unfold spring_one. frame_walk Hf fail.
Qed.

Lemma update_coins_frame (s : Mode G) :
  frames coin_writes f -> f (update_coins s) = f s.
Proof.
  intros Hf. unfold update_coins, time_time.
  destruct (collect_first _ _); [|reflexivity]. frame_walk Hf fail.
Qed.

Lemma update_camera_frame (dt : float) (s : Mode G) :
  frames camera_writes f -> f (update_camera dt s) = f s.
Proof. intros Hf. unfold update_camera. frame_walk Hf fail. Qed.

Lemma frames_camera_end : frames camera_writes f -> frames end_writes f.
Proof.
  intros Hf wr s Hw. apply Hf. destruct wr; try discriminate Hw; exact Hw.
Qed.

Lemma update_sidescroller_frame (dt : float) (s : Mode G) :
  frames camera_writes f -> f (update_sidescroller dt s) = f s.
Proof.
  intros Hf. unfold update_sidescroller.
  frame_walk Hf ltac:(rewrite game_over_frame by exact (frames_camera_end Hf)).
Qed.

Lemma camera_frame (dt : float) (s : Mode G) :
  frames camera_writes f -> f (camera dt s) = f s.
Proof.
  intros Hf. unfold camera.
  rewrite update_sidescroller_frame, update_camera_frame by exact Hf.
  reflexivity.
Qed.

Lemma update_score_frame (s s' : Mode G) :
  frames score_writes f -> update_score s = Return s' -> f s' = f s.
Proof.
  intros Hf. unfold update_score, time_time.
  destruct (computed_score _ _ _) as [c|e]; [|discriminate].
  intros [= <-]. frame_walk Hf fail.
Qed.

Lemma add_platform_frame x y w_ h_ idx (s : Mode G) :
  (forall v s, f (set_platforms v s) = f s) ->
  f (_add_platform x y w_ h_ idx s) = f s.
Proof.
  intros Hf. unfold _add_platform.
  destruct (match idx with Some _ => _ | None => _ end) as [[nw nh]|];
    apply Hf.
Qed.

Lemma add_mover_frame x y w_ h_ vx_ mr (s : Mode G) :
  frames decor_writes f -> f (_add_mover x y w_ h_ vx_ mr s) = f s.
Proof. intros Hf. unfold _add_mover. frame_walk Hf fail. Qed.

Lemma add_spikes_frame x y w_ h_ (s : Mode G) :
  frames decor_writes f -> f (_add_spikes x y w_ h_ s) = f s.
Proof. intros Hf. unfold _add_spikes. frame_walk Hf fail. Qed.

Lemma add_orb_frame x y typ (s : Mode G) :
  frames decor_writes f -> f (_add_orb x y typ s) = f s.
Proof. intros Hf. unfold _add_orb. frame_walk Hf fail. Qed.

Lemma generate_coin_frame x y (s : Mode G) :
  frames decor_writes f -> f (snd (_generate_coin x y s)) = f s.
Proof.
  intros Hf. unfold _generate_coin.
  destruct (coin_too_close _ _ _); [reflexivity|].
  cbv zeta. cbn [snd]. frame_walk Hf fail.
Qed.

Lemma generate_spring_frame x (s : Mode G) :
  frames decor_writes f -> f (snd (_generate_spring x s)) = f s.
Proof.
  intros Hf. unfold _generate_spring. cbv zeta.
  destruct (existsb _ _); [reflexivity|]. cbn [snd]. frame_walk Hf fail.
Qed.

End Phases.

Ltac decor_calls Hf :=
  first [ rewrite add_mover_frame by exact Hf
        | rewrite add_spikes_frame by exact Hf
        | rewrite add_orb_frame by exact Hf
        | rewrite generate_coin_frame by exact Hf
        | rewrite generate_spring_frame by exact Hf ].

Section Phases2.
Context {G : Type} `{PyRandom G}.

Lemma add_platform_appends x y w_ h_ idx (s : Mode G) :
  exists p, platforms (_add_platform x y w_ h_ idx s) = platforms s ++ [p]
            /\ pl_x p = x /\ pl_y p = of_int y.
Proof. unfold _add_platform.
  destruct (match idx with Some _ => _ | None => _ end) as [[nw nh]|];
    eexists; cbn [platforms set_platforms]; repeat split.
Qed.

Lemma chunk_platform_added_platforms (s : Mode G) :
  platforms (chunk_platform_added s) = platforms s ++ [chunk_platform s]
  /\ pl_x (chunk_platform s) = level_extent_x s
  /\ pl_y (chunk_platform s)
     = of_int (ground_y (cfg s) + snd (fst (chunk_draws (rng s)))).
Proof.
  unfold chunk_platform, chunk_platform_added.
  destruct (chunk_draws (rng s)) as [[[w_ gap] r] g]. cbn [fst snd].
  destruct (add_platform_appends (level_extent_x s) (ground_y (cfg s) + r) w_
              None
              (if (0 <? lib_surfaces_len (assets (cfg s)))%Z
               then Some (Z.of_nat (List.length (platforms s))
                          mod lib_surfaces_len (assets (cfg s)))%Z
               else None)
              (set_rng g (log chunk_generated s))) as [p [Hp [Hx Hy]]].
  rewrite Hp. cbn [platforms set_rng log set_trace].
  rewrite last_last. auto.
Qed.

Section Observed.
Context {A : Type} (f : Mode G -> A).

(** The steps of [_add_level_chunk] after the platform, for an observation
    that sees neither them nor the frontier. *)
Lemma add_level_chunk_after_platform (s : Mode G) :
  frames decor_writes f ->
  (forall v s, f (set_level_extent_x v s) = f s) ->
  f (_add_level_chunk s) = f (chunk_platform_added s).
Proof.
  intros Hf Hx. unfold _add_level_chunk, chunk_platform_added, chunk_draws.
  unfold rand at 1. cbn [rng log set_trace].
  destruct (randint 180 320 (rng s)) as [w_ g1].
  unfold rand at 1. cbn [rng set_rng].
  destruct (randint 80 200 g1) as [gap g2].
  unfold rand at 1. cbn [rng set_rng].
  destruct (randint (-140) 140 g2) as [r g3].
  cbn [cfg level_extent_x platforms set_rng log set_trace].
  frame_walk Hf ltac:(first [decor_calls Hf | rewrite Hx]).
  all: apply (Hf (W_rng _)); reflexivity.
Qed.

Lemma add_level_chunk_frame (s : Mode G) :
  frames world_writes f ->
  f (_add_level_chunk s) = f (log chunk_generated s).
Proof.
  intros Hf.
  assert (Hd : frames decor_writes f).
  { eapply frames_sub; [|exact Hf]. intros wr Hw.
    destruct wr; try discriminate Hw; exact Hw. }
  rewrite add_level_chunk_after_platform;
    [|exact Hd|intros v s0; exact (Hf (W_level_extent_x v) s0 eq_refl)].
  unfold chunk_platform_added.
  destruct (chunk_draws (rng s)) as [[[w_ gap] r] g].
  rewrite add_platform_frame
    by (intros v s0; exact (Hf (W_platforms v) s0 eq_refl)).
  exact (Hf (W_rng g) _ eq_refl).
Qed.

Lemma update_frontier_frame (s : Mode G) :
  frames world_writes f ->
  f (update_frontier s)
  = if frontier_near s then f (log chunk_generated s) else f s.
Proof.
  intros Hf. unfold update_frontier.
  destruct (frontier_near s); [|reflexivity]. apply add_level_chunk_frame, Hf.
Qed.

Lemma update_msg_frame (dt : float) (s : Mode G) :
  frames msg_writes f -> f (update_msg dt s) = f s.
Proof. intros Hf. unfold update_msg. frame_walk Hf fail. Qed.

Lemma finish_check_frame (s : Mode G) :
  frames end_writes f -> f (finish_check s) = f s.
Proof.
  intros Hf. unfold finish_check, _level_complete, stop.
  destruct (finish s); [|reflexivity]. frame_walk Hf fail.
Qed.

End Observed.

(** The frontier moves on by width plus gap. *)
Lemma add_level_chunk_extent (s : Mode G) :
  level_extent_x (_add_level_chunk s)
  = level_extent_x s
    + of_int (fst (fst (fst (chunk_draws (rng s))))
              + snd (fst (fst (chunk_draws (rng s))))).
Proof.
  unfold _add_level_chunk, chunk_draws.
  unfold rand at 1. cbn [rng log set_trace].
  destruct (randint 180 320 (rng s)) as [w_ g1].
  unfold rand at 1. cbn [rng set_rng].
  destruct (randint 80 200 g1) as [gap g2].
  unfold rand at 1. cbn [rng set_rng].
  destruct (randint (-140) 140 g2) as [r g3].
  cbn [cfg level_extent_x platforms set_rng log set_trace fst snd].
  assert (Hf : frames decor_writes (@level_extent_x G)) by frames_tac.
  match goal with
  | |- context [_add_platform ?x ?y ?ww ?hh ?i ?s0] =>
      set (sp := _add_platform x y ww hh i s0);
      assert (Hsp : level_extent_x sp = level_extent_x s)
        by (unfold sp; rewrite add_platform_frame by reflexivity; reflexivity)
  end.
  clearbody sp.
  frame_walk Hf ltac:(decor_calls Hf).
  all: cbn [level_extent_x set_level_extent_x].
  all: try (apply (Hf (W_rng _)); reflexivity).
  f_equal.
  frame_walk Hf ltac:(decor_calls Hf).
Qed.

End Phases2.

(* ================================================================== *)
(** * The score *)
(* ================================================================== *)

Section Tick.
Context {G : Type} `{PyRandom G}.

Lemma calls_log (p : call -> bool) (c : call) (s : Mode G) :
  calls p (log c s) = (calls p s + if p c then 1 else 0)%nat.
Proof.
  unfold calls, log. cbn [trace set_trace].
  rewrite filter_app, length_app. simpl. destruct (p c); reflexivity.
Qed.

Lemma update_inv (dt : float) (s s' : Mode G) :
  _update dt s = Return s' <->
  exists m, update_score (before_score dt s) = Return m
            /\ s' = update_msg dt (update_frontier m).
Proof.
  unfold _update, before_score.
  destruct (update_score (camera dt (interactions (physics dt s))))
    as [m|e]; simpl; split.
  - intros [= <-]. exists m. auto.
  - intros [m' [[= <-] ->]]. reflexivity.
  - discriminate.
  - intros [m' [Hm _]]. discriminate.
Qed.

Lemma update_score_inv (s m : Mode G) :
  update_score s = Return m <->
  exists c,
    computed_score (px s) (time_alive s)
      (bonus_mult (clock s (clock_reads s)) (buff_end_time s)) = Return c
    /\ m = set_score (Z.max (score s) c) (set_clock_reads (S (clock_reads s)) s).
Proof.
  unfold update_score, time_time. cbn [px time_alive buff_end_time set_clock_reads score].
  destruct (computed_score _ _ _) as [c|e]; simpl; split.
  - intros [= <-]. exists c. auto.
  - intros [c' [[= <-] ->]]. reflexivity.
  - discriminate.
  - intros [c' [Hc _]]. discriminate.
Qed.

Lemma score_before_score (dt : float) (s : Mode G) :
  score (before_score dt s)
  = (score s + if collects dt s then 150 else 0)%Z.
Proof.
  unfold before_score, interactions, collects, before_coins.
  rewrite (camera_frame score), (update_fall_frame score) by frames_tac.
  assert (Hk : score (update_springs (update_spikes (physics dt s))) = score s).
  { rewrite (update_springs_frame score), (update_spikes_frame score),
      (physics_frame score) by frames_tac. reflexivity. }
  revert Hk. generalize (update_springs (update_spikes (physics dt s))).
  intros k Hk. unfold update_coins, time_time.
  destruct (collect_first _ _); cbn [score set_score _save_coins_state log
    set_trace set__msg_timer set__msg set_buff_end_time set_clock_reads
    set_coins]; lia.
Qed.

Lemma after_score_frame {A} (f : Mode G -> A) (dt : float) (m : Mode G) :
  frames world_writes f -> frames msg_writes f ->
  (forall s, f (log chunk_generated s) = f s) ->
  f (update_msg dt (update_frontier m)) = f m.
Proof.
  intros Hw Hm Hl. rewrite (update_msg_frame f) by exact Hm.
  rewrite (update_frontier_frame f) by exact Hw.
  destruct (frontier_near m); [apply Hl|reflexivity].
Qed.

Lemma before_score_frame {A} (f : Mode G -> A) (dt : float) (s : Mode G) :
  frames body_writes f -> frames end_writes f -> frames spring_writes f ->
  frames coin_writes f -> frames camera_writes f ->
  f (before_score dt s) = f s.
Proof.
  intros Hb He Hs Hc Hm. unfold before_score, interactions.
  rewrite (camera_frame f), (update_fall_frame f), (update_coins_frame f),
    (update_springs_frame f), (update_spikes_frame f), (physics_frame f)
    by assumption.
  reflexivity.
Qed.

(** C3, amended.  In a frame whose score computation returns, the score
    at the end is the larger of two numbers: the score at the start, plus
    150 if a coin was collected in this frame; and
    [int(int(x*0.1 + elapsedTime*3) * buffMultiplier)], where [int]
    truncates toward zero, [x] and [elapsedTime] are the body's horizontal
    position and the elapsed time at the end of the frame, and
    [buffMultiplier] is 2 if the clock reading taken for the score is before
    the buff end and 1 otherwise. *)
Theorem score_rule (dt : float) (s : Mode G) (c : Z) :
  computed_score (px (before_score dt s)) (time_alive (before_score dt s))
    (bonus_mult
       (clock (before_score dt s) (clock_reads (before_score dt s)))
       (buff_end_time (before_score dt s))) = Return c ->
  exists s',
    _update dt s = Return s'
    /\ score s' = Z.max (score s + if collects dt s then 150 else 0) c
    /\ px s' = px (before_score dt s)
    /\ time_alive s' = time_alive (before_score dt s)
    /\ buff_end_time s' = buff_end_time (before_score dt s).
Proof.
  intros Hc. set (m := before_score dt s) in *.
  pose proof (score_before_score dt s) as Hsc.
  assert (Hupd : forall m', update_score m = Return m' ->
            _update dt s = Return (update_msg dt (update_frontier m'))).
  { intros m' Hm'. apply update_inv. exists m'. auto. }
  fold m in Hsc. clearbody m.
  exists (update_msg dt (update_frontier
            (set_score (Z.max (score m) c)
               (set_clock_reads (S (clock_reads m)) m)))).
  split.
  { apply Hupd, update_score_inv. exists c. auto. }
  rewrite (after_score_frame score), (after_score_frame px),
    (after_score_frame (@time_alive G)), (after_score_frame (@buff_end_time G))
    by (try frames_tac; reflexivity).
  cbn [score px time_alive buff_end_time set_score set_clock_reads].
  rewrite Hsc. auto.
Qed.

End Tick.

(* ================================================================== *)
(** * The frontier *)
(* ================================================================== *)

(** Discharge [frames P (calls p)] when no call in [P] is of the kind [p]. *)
Ltac frames_calls :=
  let wr := fresh "wr" in
  let s := fresh "s" in
  let Hw := fresh "Hw" in
  intros wr s Hw; destruct wr; try discriminate Hw; try reflexivity;
  cbn [write_to]; rewrite calls_log;
  match goal with
  | c : call |- _ => destruct c; try discriminate Hw; simpl; lia
  end.

Section Tick2.
Context {G : Type} `{PyRandom G}.

Lemma handle_events_continue {A} (f : Mode G -> A) filename events :
  (forall v s, f (set_hold_left v s) = f s) ->
  (forall v s, f (set_hold_right v s) = f s) ->
  (forall v s, f (set_want_jump v s) = f s) ->
  (forall v s, f (set__msg v s) = f s) ->
  (forall v s, f (set__msg_timer v s) = f s) ->
  forall s s1, handle_events filename events s = (true, s1) -> f s1 = f s.
Proof.
  intros Hl Hr Hj Hm Ht.
  induction events as [|ev events IH]; intros s s1; simpl.
  - intros [= <-]. reflexivity.
  - destruct ev as [[]|[]|]; try discriminate; intros He;
      apply IH in He; rewrite He; unfold export_gameplay;
      rewrite ?Hl, ?Hr, ?Hj, ?Ht, ?Hm; reflexivity.
Qed.

Lemma calls_before_score (p : call -> bool) dt (s : Mode G) :
  p spring_launched = false ->
  (forall c, session_call c = true -> p c = false) ->
  calls p (before_score dt s) = calls p s.
Proof.
  intros Hl Hs.
  apply (before_score_frame (calls p)).
  - frames_tac.
  - intros wr s0 Hw; destruct wr; try discriminate Hw; try reflexivity.
    cbn [write_to]. rewrite calls_log, (Hs c) by exact Hw. lia.
  - intros wr s0 Hw; destruct wr; try discriminate Hw; try reflexivity.
    cbn [write_to]. rewrite calls_log. destruct c; try discriminate Hw.
    rewrite Hl. lia.
  - intros wr s0 Hw; destruct wr; try discriminate Hw; try reflexivity.
    cbn [write_to]. rewrite calls_log. destruct c; try discriminate Hw.
    rewrite (Hs (save_coins_data saved saved_buff_end_time)) by reflexivity.
    lia.
  - intros wr s0 Hw; destruct wr; try discriminate Hw; try reflexivity.
    cbn [write_to]. rewrite calls_log, (Hs c) by exact Hw. lia.
Qed.

Lemma calls_chunk_after_score dt (m : Mode G) :
  calls is_chunk (update_msg dt (update_frontier m))
  = (calls is_chunk m + if frontier_near m then 1 else 0)%nat.
Proof.
  rewrite (update_msg_frame (calls is_chunk)) by frames_tac.
  rewrite (update_frontier_frame (calls is_chunk)) by frames_calls.
  rewrite calls_log. destruct (frontier_near m); simpl; lia.
Qed.

Lemma self_update_inv dt (s m : Mode G) :
  update_score (before_score dt s) = Return m ->
  self_update dt s
  = Return (match finish s with
            | Some _ => finish_check (update_msg dt (update_frontier m))
            | None => update_msg dt (update_frontier m)
            end).
Proof.
  intros Hm. unfold self_update, LevelPlayMode_update.
  assert (Hu : _update dt s = Return (update_msg dt (update_frontier m))).
  { apply update_inv. exists m. auto. }
  rewrite Hu. destruct (finish s); reflexivity.
Qed.

(** C2, amended.  In a tick that reaches its update, [_add_level_chunk] is
    called, once and before the render, exactly when at line 686, after
    this tick's camera step, [cam_x + 1.5 * w > level_extent_x]; [cam_x] is
    the camera's left edge, so this is when the frontier is less than half
    a screen width ahead of the camera's right edge, not one and a half.
    Otherwise it is not called. *)
Theorem frontier_rule filename events dt (s s1 m : Mode G) :
  running s = true ->
  handle_events filename events s = (true, s1) ->
  update_score (before_score dt (set_time_alive (time_alive s1 + dt) s1))
  = Return m ->
  exists u,
    tick filename events dt s = Return (true, log drawn u)
    /\ trace (log drawn u) = trace u ++ [drawn]
    /\ calls is_chunk u
       = (calls is_chunk s + if frontier_near m then 1 else 0)%nat.
Proof.
  intros Hrun Hev Hm.
  pose proof (self_update_inv _ _ _ Hm) as Hu.
  cbn [finish set_time_alive] in Hu.
  eexists. split; [|split].
  - unfold tick. rewrite Hrun, Hev. cbn [negb]. rewrite Hu. reflexivity.
  - reflexivity.
  - assert (Hcm : calls is_chunk m = calls is_chunk s).
    { rewrite (update_score_frame (calls is_chunk) _ _ ltac:(frames_tac) Hm).
      rewrite calls_before_score by (try reflexivity; intros []; auto; discriminate).
      change (calls is_chunk (set_time_alive (time_alive s1 + dt) s1))
        with (calls is_chunk s1).
      apply (handle_events_continue (calls is_chunk) filename events);
        try reflexivity. exact Hev. }
    destruct (finish s1).
    + rewrite (finish_check_frame (calls is_chunk)) by frames_calls.
      rewrite calls_chunk_after_score, Hcm. reflexivity.
    + rewrite calls_chunk_after_score, Hcm. reflexivity.
Qed.

(** C10, amended.  In seeded level play, whenever at line 686 of a frame,
    after this frame's camera step, [cam_x + 1.5 * w > level_extent_x], the
    inherited update appends one platform to the imported list, at the old
    frontier and at a height drawn from the global generator, and moves the
    frontier on by the width and gap drawn from it. *)
Theorem seeded_level_extended dt (s m : Mode G) (fin : Finish) :
  finish s = Some fin ->
  update_score (before_score dt s) = Return m ->
  frontier_near m = true ->
  exists s',
    LevelPlayMode_update dt s = Return s'
    /\ platforms s' = platforms s ++ [chunk_platform m]
    /\ pl_x (chunk_platform m) = level_extent_x s
    /\ pl_y (chunk_platform m)
       = of_int (ground_y (cfg s) + snd (fst (chunk_draws (rng s))))
    /\ level_extent_x s'
       = level_extent_x s
         + of_int (fst (fst (fst (chunk_draws (rng s))))
                   + snd (fst (fst (chunk_draws (rng s))))).
Proof.
  intros Hfin Hm Hnear.
  pose proof (self_update_inv _ _ _ Hm) as Hu.
  unfold self_update in Hu. rewrite Hfin in Hu.
  exists (finish_check (update_msg dt (update_frontier m))).
  split; [exact Hu|].
  assert (Hfr : forall {A} (f : Mode G -> A),
            frames body_writes f -> frames end_writes f ->
            frames spring_writes f -> frames coin_writes f ->
            frames camera_writes f -> frames score_writes f -> f m = f s).
  { intros A f Hb He Hs Hc Hk Hsc.
    rewrite (update_score_frame f _ _ Hsc Hm).
    apply before_score_frame; assumption. }
  assert (Hp : platforms m = platforms s) by (apply Hfr; frames_tac).
  assert (Hx : level_extent_x m = level_extent_x s) by (apply Hfr; frames_tac).
  assert (Hg : rng m = rng s) by (apply Hfr; frames_tac).
  assert (Hc : cfg m = cfg s) by (apply Hfr; frames_tac).
  destruct (chunk_platform_added_platforms m) as [Hpl [Hpx Hpy]].
  rewrite (finish_check_frame (@platforms G)),
    (finish_check_frame (@level_extent_x G)) by frames_tac.
  rewrite (update_msg_frame (@platforms G)),
    (update_msg_frame (@level_extent_x G)) by frames_tac.
  unfold update_frontier. rewrite Hnear.
  rewrite (add_level_chunk_after_platform (@platforms G))
    by (try frames_tac; reflexivity).
  rewrite add_level_chunk_extent.
  rewrite Hpl, Hpx, Hpy, Hp, Hx, Hg, Hc. auto.
Qed.

End Tick2.

(* ================================================================== *)
(** * Collisions, springs and jumps in the frame *)
(* ================================================================== *)

Section Tick3.
Context {G : Type} `{PyRandom G}.

Lemma physics_y_pass (dt : float) (s : Mode G) :
  physics dt s
  = update_carry dt (_resolve_collisions axis_y (before_y_pass dt s)).
Proof. unfold physics, before_y_pass, update_position. reflexivity. Qed.

Lemma resolve_y_at_rest (l : list rect) (s : Mode G) :
  vy s = 0 -> fold_left (resolve_one axis_y) l s = s.
Proof.
  intros Hv. induction l as [|q l IH]; simpl; [reflexivity|].
  assert (Hq : resolve_one axis_y s q = s).
  { unfold resolve_one. rewrite Hv.
    destruct (negb (body_hits s q)); reflexivity. }
  rewrite Hq. exact IH.
Qed.

Lemma resolve_y_misses (pre l : list rect) (s : Mode G) :
  (forall q, In q pre -> body_hits s q = false) ->
  fold_left (resolve_one axis_y) (pre ++ l) s
  = fold_left (resolve_one axis_y) l s.
Proof.
  induction pre as [|q pre IH]; simpl; intros Hn; [reflexivity|].
  unfold resolve_one at 2. rewrite (Hn q) by auto. simpl.
  apply IH. intros q' Hq'. apply Hn. auto.
Qed.

Lemma resolve_y_first_hit (s : Mode G) (pre post : list rect) (pl : rect) :
  solids s = pre ++ pl :: post ->
  (forall q, In q pre -> body_hits s q = false) ->
  body_hits s pl = true ->
  _resolve_collisions axis_y s
  = if gtb (vy s) 0 then
      set_on_ground true
        (set_vy 0 (set_py (r_y pl - of_int (ph (cfg s))) s))
    else if vy s <? 0 then set_vy 0 (set_py (r_y pl + r_h pl) s)
    else s.
Proof.
  intros Hl Hpre Hhit. unfold _resolve_collisions. rewrite Hl.
  rewrite resolve_y_misses by exact Hpre. simpl.
  unfold resolve_one at 2. rewrite Hhit. simpl.
  destruct (gtb (vy s) 0) eqn:Hdown; [|destruct (vy s <? 0) eqn:Hup].
  - apply resolve_y_at_rest. reflexivity.
  - apply resolve_y_at_rest. reflexivity.
  - clear Hl Hpre Hhit. induction post as [|q post IH]; simpl; [reflexivity|].
    assert (Hq : resolve_one axis_y s q = s).
    { unfold resolve_one. rewrite Hdown, Hup.
      destruct (negb (body_hits s q)); reflexivity. }
    rewrite Hq. exact IH.
Qed.

Lemma after_y_pass_frame {A} (f : Mode G -> A) dt (s s' : Mode G) :
  frames carry_writes f -> frames end_writes f -> frames spring_writes f ->
  frames coin_writes f -> frames camera_writes f -> frames score_writes f ->
  frames world_writes f -> frames msg_writes f ->
  (forall s, f (log chunk_generated s) = f s) ->
  _update dt s = Return s' ->
  f s' = f (_resolve_collisions axis_y (before_y_pass dt s)).
Proof.
  intros Hca He Hs Hc Hk Hsc Hw Hm Hl Hu.
  apply update_inv in Hu. destruct Hu as [m [Hms ->]].
  rewrite (after_score_frame f) by assumption.
  rewrite (update_score_frame f _ _ Hsc Hms).
  unfold before_score, interactions.
  rewrite (camera_frame f), (update_fall_frame f), (update_coins_frame f),
    (update_springs_frame f), (update_spikes_frame f) by assumption.
  rewrite physics_y_pass. apply update_carry_frame, Hca.
Qed.

Lemma y_pass_first_hit_rests (k : Mode G) (pre post : list rect) (pl : rect) :
  solids k = pre ++ pl :: post ->
  (forall q, In q pre -> body_hits k q = false) ->
  body_hits k pl = true ->
  gtb (vy k) 0 || (vy k <? 0) = true ->
  (gtb (vy k) 0 = true ->
   gtb (r_y pl - of_int (ph (cfg k)) + of_int (ph (cfg k))) (r_y pl) = false) ->
  y_overlap (_resolve_collisions axis_y k) pl = false
  /\ (gtb (vy k) 0 = true ->
      py (_resolve_collisions axis_y k) = r_y pl - of_int (ph (cfg k)))
  /\ (gtb (vy k) 0 = false ->
      py (_resolve_collisions axis_y k) = r_y pl + r_h pl).
Proof.
  intros Hl Hpre Hhit Hv Hex.
  rewrite (resolve_y_first_hit k pre post pl Hl Hpre Hhit).
  destruct (gtb (vy k) 0) eqn:Hdown.
  - split; [|split; [reflexivity|discriminate]].
    unfold y_overlap. cbn [py cfg set_on_ground set_vy set_py].
    rewrite (Hex eq_refl). apply andb_false_r.
  - simpl in Hv. rewrite Hv.
    split; [|split; [discriminate|reflexivity]].
    unfold y_overlap. cbn [py cfg set_vy set_py].
    rewrite ltb_irrefl. reflexivity.
Qed.

(** C4, amended.  The Y pass resolves against one rectangle only: the
    first in [platforms + movers] that the moved body overlaps, provided the
    vertical velocity is not zero.  The body ends the frame flush against
    it, [py = y - ph] when falling and [py = y + h] when rising, and so
    without overlap with it on the Y axis, as long as the subtraction
    [y - ph] is exact.  Overlap with any other rectangle is left as it is. *)
Theorem y_pass_rests_on_first_hit dt (s s' : Mode G)
    (pre post : list rect) (pl : rect) :
  _update dt s = Return s' ->
  solids (before_y_pass dt s) = pre ++ pl :: post ->
  (forall q, In q pre -> body_hits (before_y_pass dt s) q = false) ->
  body_hits (before_y_pass dt s) pl = true ->
  gtb (vy (before_y_pass dt s)) 0 || (vy (before_y_pass dt s) <? 0) = true ->
  (gtb (vy (before_y_pass dt s)) 0 = true ->
   gtb (r_y pl - of_int (ph (cfg (before_y_pass dt s)))
        + of_int (ph (cfg (before_y_pass dt s)))) (r_y pl) = false) ->
  y_overlap s' pl = false
  /\ (gtb (vy (before_y_pass dt s)) 0 = true ->
      py s' = r_y pl - of_int (ph (cfg (before_y_pass dt s))))
  /\ (gtb (vy (before_y_pass dt s)) 0 = false -> py s' = r_y pl + r_h pl).
Proof.
  intros Hu Hl Hpre Hhit Hv Hex.
  assert (Hy : y_overlap s' pl
               = y_overlap (_resolve_collisions axis_y (before_y_pass dt s)) pl).
  { apply (after_y_pass_frame (fun s => y_overlap s pl) dt s s');
      try frames_tac; try reflexivity; exact Hu. }
  assert (Hp : py s' = py (_resolve_collisions axis_y (before_y_pass dt s))).
  { apply (after_y_pass_frame (@py G) dt s s');
      try frames_tac; try reflexivity; exact Hu. }
  rewrite Hy, Hp.
  apply (y_pass_first_hit_rests (before_y_pass dt s) pre post pl);
    assumption.
Qed.

Lemma after_springs_frame {A} (f : Mode G -> A) dt (s s' : Mode G) :
  frames end_writes f -> frames coin_writes f -> frames camera_writes f ->
  frames score_writes f -> frames world_writes f -> frames msg_writes f ->
  (forall s, f (log chunk_generated s) = f s) ->
  _update dt s = Return s' ->
  f s' = f (before_coins dt s).
Proof.
  intros He Hc Hk Hsc Hw Hm Hl Hu.
  apply update_inv in Hu. destruct Hu as [m [Hms ->]].
  rewrite (after_score_frame f) by assumption.
  rewrite (update_score_frame f _ _ Hsc Hms).
  unfold before_score, interactions, before_coins.
  rewrite (camera_frame f), (update_fall_frame f), (update_coins_frame f)
    by assumption.
  reflexivity.
Qed.

Lemma calls_launch_chunk (s : Mode G) :
  calls is_launch (log chunk_generated s) = calls is_launch s.
Proof. rewrite calls_log. simpl. lia. Qed.

Lemma frames_calls_launch_end : frames end_writes (calls (G:=G) is_launch).
Proof. frames_calls. Qed.
Lemma frames_calls_launch_coin : frames coin_writes (calls (G:=G) is_launch).
Proof. frames_calls. Qed.
Lemma frames_calls_launch_camera :
  frames camera_writes (calls (G:=G) is_launch).
Proof. frames_calls. Qed.
Lemma frames_calls_launch_world : frames world_writes (calls (G:=G) is_launch).
Proof. frames_calls. Qed.

Lemma before_coins_springs dt (s : Mode G) :
  before_coins dt s = update_springs (before_springs dt s).
Proof. unfold before_coins, before_springs. reflexivity. Qed.

(** C8.  Under the default gravity, if at the spring check of a frame the
    body overlaps a spring while [vy >= 0], the frame ends with
    [vy = -760], which is negative, and exactly one launch; no frame has
    more than one launch; and the velocity the check leaves does not depend
    on the jump request or the held keys. *)
Theorem spring_launch_in_frame dt (s s' : Mode G) :
  gravity (cfg s) = 1500 ->
  _update dt s = Return s' ->
  (calls is_launch s' <= calls is_launch s + 1)%nat
  /\ ((exists sp, In sp (springs (before_springs dt s))
                  /\ body_hits (before_springs dt s) sp = true) ->
      geb (vy (before_springs dt s)) 0 = true ->
      vy s' = -760 /\ (vy s' <? 0) = true
      /\ calls is_launch s' = (calls is_launch s + 1)%nat)
  /\ (forall jump left right,
        vy (update_springs
              (set_hold_right right
                 (set_hold_left left
                    (set_want_jump jump (before_springs dt s)))))
        = vy (update_springs (before_springs dt s))).
Proof.
  intros Hg Hu.
  assert (Hgk : gravity (cfg (before_springs dt s)) = 1500).
  { unfold before_springs.
    rewrite (update_spikes_frame (@cfg G)), (physics_frame (@cfg G))
      by frames_tac. exact Hg. }
  assert (Hck : calls is_launch (before_springs dt s) = calls is_launch s).
  { unfold before_springs. rewrite (update_spikes_frame (calls is_launch))
      by exact frames_calls_launch_end.
    apply physics_frame. frames_tac. }
  assert (Hv : vy s' = vy (update_springs (before_springs dt s))).
  { rewrite <- before_coins_springs.
    apply (after_springs_frame (@vy G) dt s s');
      try frames_tac; try reflexivity; exact Hu. }
  assert (Hc : calls is_launch s'
               = calls is_launch (update_springs (before_springs dt s))).
  { rewrite <- before_coins_springs.
    apply (after_springs_frame (calls is_launch) dt s s');
      try frames_tac; try exact calls_launch_chunk;
      try exact frames_calls_launch_end; try exact frames_calls_launch_coin;
      try exact frames_calls_launch_camera;
      try exact frames_calls_launch_world; exact Hu. }
  rewrite Hv, Hc. revert Hgk Hck. generalize (before_springs dt s).
  intros k Hgk Hck.
  destruct (spring_launch k Hgk) as [[tl [Htr Htl]] [Hhit Hind]].
  split; [|split].
  - rewrite <- Hck. unfold calls. rewrite Htr, filter_app, length_app.
    destruct Htl as [-> | ->]; simpl; lia.
  - intros Hsp Hvk. destruct (Hhit Hsp Hvk) as [E1 [E2 E3]].
    split; [exact E1|]. split; [exact E2|].
    rewrite <- Hck. unfold calls. rewrite E3, filter_app, length_app.
    reflexivity.
  - exact Hind.
Qed.

Lemma after_jump_frame {A} (f : Mode G -> A) dt (s s' : Mode G) :
  frames movers_writes f -> frames position_writes f ->
  frames carry_writes f -> frames end_writes f -> frames spring_writes f ->
  frames coin_writes f -> frames camera_writes f -> frames score_writes f ->
  frames world_writes f -> frames msg_writes f ->
  (forall s, f (log chunk_generated s) = f s) ->
  _update dt s = Return s' ->
  f s' = f (update_jump (update_velocity dt s)).
Proof.
  intros Hmv Hp Hca He Hs Hc Hk Hsc Hw Hm Hl Hu.
  apply update_inv in Hu. destruct Hu as [m [Hms ->]].
  rewrite (after_score_frame f) by assumption.
  rewrite (update_score_frame f _ _ Hsc Hms).
  unfold before_score, interactions, physics.
  rewrite (camera_frame f), (update_fall_frame f), (update_coins_frame f),
    (update_springs_frame f), (update_spikes_frame f),
    (update_carry_frame f), (update_position_frame f),
    (update_movers_frame f) by assumption.
  reflexivity.
Qed.

Lemma touching_after_velocity dt (s : Mode G) (t : orb_type) :
  touching (update_velocity dt s) t <-> touching s t.
Proof.
  assert (E : forall o, touches_orb (update_velocity dt s) o = touches_orb s o).
  { intros o. apply (update_velocity_frame (fun s => touches_orb s o)).
    frames_tac. }
  assert (Eo : orbs (update_velocity dt s) = orbs s).
  { apply (update_velocity_frame (@orbs G)). frames_tac. }
  unfold touching. rewrite Eo. split; intros [o [Hin [Ht Hty]]]; exists o;
    (split; [exact Hin|split; [|exact Hty]]); [rewrite <- E|rewrite E];
    exact Ht.
Qed.

(** C7.  In a frame, if a jump is requested and the body is on the ground
    or touches an orb, the jump step sets the vertical velocity to
    [-jump_speed * mult], where [mult] is 1.35 if a high orb is touched,
    else 1.0 if a normal one is, else 0.6 if a small one is, and 1.0 when
    no orb is touched; otherwise the step leaves the velocity alone.  The
    request is cleared by the step in either case and is still cleared at
    the end of the frame. *)
Theorem jump_in_frame dt (s : Mode G) :
  want_jump (after_jump dt s) = false
  /\ (forall s', _update dt s = Return s' -> want_jump s' = false)
  /\ (want_jump s = true ->
      (on_ground s = true \/ exists t, touching s t) ->
      exists mult,
        vy (after_jump dt s) = - jump_speed (cfg s) * mult
        /\ ((touching s high /\ mult = 1.35)
            \/ (~ touching s high /\ touching s normal /\ mult = 1.0)
            \/ (~ touching s high /\ ~ touching s normal
                /\ touching s small /\ mult = 0.6)
            \/ ((forall t, ~ touching s t) /\ mult = 1.0)))
  /\ ((want_jump s = false
       \/ (on_ground s = false /\ forall t, ~ touching s t)) ->
      vy (after_jump dt s) = vy (update_velocity dt s)).
Proof.
  unfold after_jump.
  destruct (jump_impulse (update_velocity dt s)) as [Hw [Hj Hn]].
  assert (Ewj : want_jump (update_velocity dt s) = want_jump s)
    by (apply (update_velocity_frame (@want_jump G)); frames_tac).
  assert (Eog : on_ground (update_velocity dt s) = on_ground s)
    by (apply (update_velocity_frame (@on_ground G)); frames_tac).
  assert (Ecf : cfg (update_velocity dt s) = cfg s)
    by (apply (update_velocity_frame (@cfg G)); frames_tac).
  pose proof (touching_after_velocity dt s) as Et.
  assert (Hend : forall s', _update dt s = Return s' ->
                   want_jump s' = want_jump (update_jump (update_velocity dt s))).
  { intros s' Hu. apply (after_jump_frame (@want_jump G) dt s s');
      try frames_tac; try reflexivity; exact Hu. }
  revert Hw Hj Hn Ewj Eog Ecf Et Hend. generalize (update_velocity dt s).
  intros k Hw Hj Hn Ewj Eog Ecf Et Hend.
  split; [exact Hw|]. split; [|split].
  - intros s' Hu. rewrite (Hend s' Hu). exact Hw.
  - intros Hwj Hg. rewrite <- Ewj in Hwj.
    destruct Hj as [mult [Hv Hm]]; [exact Hwj| |].
    { destruct Hg as [Hg|[t Ht]]; [left; congruence|].
      right. exists t. apply Et, Ht. }
    exists mult. rewrite <- Ecf. split; [exact Hv|].
    destruct Hm as [[A1 A2]|[[A1 [A2 A3]]|[[A1 [A2 [A3 A4]]]|[A1 A2]]]].
    + left. split; [apply Et, A1|exact A2].
    + right. left. split; [intros X; apply A1, Et, X|].
      split; [apply Et, A2|exact A3].
    + right. right. left. split; [intros X; apply A1, Et, X|].
      split; [intros X; apply A2, Et, X|]. split; [apply Et, A3|exact A4].
    + right. right. right. split; [|exact A2].
      intros t X. apply (A1 t), Et, X.
  - intros Hc. apply Hn. rewrite Ewj, Eog.
    destruct Hc as [Hc|[Hc1 Hc2]]; [left; exact Hc|].
    right. split; [exact Hc1|]. intros t X. apply (Hc2 t), Et, X.
Qed.

End Tick3.

(* ================================================================== *)
(** * The scenarios, run *)
(* ================================================================== *)

Module Runs.
Import Lcg Scenarios FloatOrder.

Lemma generate_level_by_index_deterministic_witness :
  exists lvl : level,
    generate_level_by_index (G:=Z) 7 2400 400 = Some lvl
    /\ (forall fuel, (level_fuel 2400 <= fuel)%nat ->
          generate_level_with (G:=Z) fuel 7 2400 400 = Some lvl)
    /\ lv_seed lvl = 7%Z /\ lv_width lvl = 2400%Z
    /\ lv_finish lvl = mkLevelFinish (2400 - 80) (400 - 80) 34.
Proof.
  exact (generate_level_by_index_deterministic (H:=lcg_spec) 7 2400 400).
Defined.

(** C2 as stated fails.  The camera's right edge is at 620 and the frontier
    at [620 + 1.4 * 1000]; one tick renders, leaves the right edge at 620,
    and has not called [_add_level_chunk]. *)
Lemma frontier_scenario_counterexample :
  cam_x (frontier_at 1.4) + of_int (w (cfg (frontier_at 1.4))) = 620
  /\ level_extent_x (frontier_at 1.4)
     = 620 + 1.4 * of_int (w (cfg (frontier_at 1.4)))
  /\ match tick None [] frame (frontier_at 1.4) with
     | Return (true, s') =>
         cam_x s' + of_int (w (cfg s')) = 620
         /\ calls is_chunk s' = calls is_chunk (frontier_at 1.4)
         /\ platforms s' = platforms (frontier_at 1.4)
         /\ last (trace s') on_exit = drawn
     | _ => False
     end.
Proof. vm_compute. repeat split. Qed.

Lemma frontier_rule_witness :
  exists m u,
    update_score
      (before_score frame
         (set_time_alive (time_alive (frontier_at 0.4) + frame)
            (frontier_at 0.4))) = Return m
    /\ level_extent_x m
       = cam_x m + of_int (w (cfg m)) + 0.4 * of_int (w (cfg m))
    /\ frontier_near m = true
    /\ tick None [] frame (frontier_at 0.4) = Return (true, log drawn u)
    /\ calls is_chunk u = (calls is_chunk (frontier_at 0.4) + 1)%nat.
Proof.
  let v := eval vm_compute in
        (update_score
           (before_score frame
              (set_time_alive (time_alive (frontier_at 0.4) + frame)
                 (frontier_at 0.4)))) in
  match v with
  | Return ?m =>
      assert (Hm : update_score
                     (before_score frame
                        (set_time_alive (time_alive (frontier_at 0.4) + frame)
                           (frontier_at 0.4))) = Return m)
        by (vm_compute; reflexivity);
      destruct (frontier_rule None [] frame (frontier_at 0.4) (frontier_at 0.4)
                  m eq_refl eq_refl Hm) as [u [Ht [_ Hc]]];
      exists m, u
  end.
  split; [exact Hm|]. split; [vm_compute; reflexivity|].
  split; [vm_compute; reflexivity|]. split; [exact Ht|].
  rewrite Hc. reflexivity.
Defined.

(** C3 as stated fails.  The buff is active, the body is at [x = 105] and
    0.016 s have elapsed: [floor((x*0.1 + elapsedTime*3) * 2)] is 21, the
    frame leaves the score at 20. *)
Lemma score_formula_counterexample :
  score buffed = 0%Z
  /\ match tick None [] frame buffed with
     | Return (true, s') =>
         bonus_mult (clock buffed (clock_reads buffed)) (buff_end_time s') = 2
         /\ spec_score (score buffed) (px s') (time_alive s') 2 = Return 21%Z
         /\ score s' = 20%Z
     | _ => False
     end.
Proof. vm_compute. repeat split. Qed.

Lemma score_rule_witness :
  exists s',
    _update frame buffed = Return s'
    /\ score s'
       = Z.max (score buffed + if collects frame buffed then 150 else 0) 20
    /\ px s' = px (before_score frame buffed)
    /\ time_alive s' = time_alive (before_score frame buffed)
    /\ buff_end_time s' = buff_end_time (before_score frame buffed).
Proof.
  apply (score_rule frame buffed 20). vm_compute. reflexivity.
Defined.

(** C4 as stated fails.  The body lands on the lower of two overlapping
    platforms, which comes first in the list; the pass then leaves it 10
    deep in the upper one, alive, at the end of the frame. *)
Lemma y_pass_counterexample :
  In upper_platform (platforms stacked)
  /\ match tick None [] frame stacked with
     | Return (true, s') =>
         dead s' = false
         /\ platforms s' = platforms stacked
         /\ body_hits s' (platform_rect upper_platform) = true
         /\ y_overlap s' (platform_rect upper_platform) = true
         /\ py s' + of_int (ph (cfg s')) - pl_y upper_platform = 10
     | _ => False
     end.
Proof.
  split; [right; left; reflexivity|]. vm_compute. repeat split.
Qed.

Lemma y_pass_rests_on_first_hit_witness :
  exists s',
    _update frame stacked = Return s'
    /\ solids (before_y_pass frame stacked)
       = [] ++ platform_rect lower_platform :: [platform_rect upper_platform]
    /\ y_overlap s' (platform_rect lower_platform) = false
    /\ py s' = 410 - 48.
Proof.
  let v := eval vm_compute in (_update frame stacked) in
  match v with
  | Return ?s' =>
      assert (Hu : _update frame stacked = Return s')
        by (vm_compute; reflexivity);
      exists s'
  end.
  assert (Hl : solids (before_y_pass frame stacked)
               = [] ++ platform_rect lower_platform
                    :: [platform_rect upper_platform])
    by (vm_compute; reflexivity).
  destruct (y_pass_rests_on_first_hit frame stacked _ [] _ _ Hu Hl)
    as [Hy [Hdown _]].
  - intros q [].
  - vm_compute. reflexivity.
  - vm_compute. reflexivity.
  - intros _. vm_compute. reflexivity.
  - split; [exact Hu|]. split; [exact Hl|]. split; [exact Hy|].
    rewrite Hdown by (vm_compute; reflexivity). vm_compute. reflexivity.
Defined.

Lemma session_coins_spaced : spaced (coins session).
Proof.
  intros i j ci cj Hij Hi Hj _ _.
  assert (Hlj : (j < List.length (coins session))%nat)
    by (apply nth_error_Some; congruence).
  change (List.length (coins session)) with 3%nat in Hlj.
  destruct i as [|[|[|i]]], j as [|[|[|j]]];
    try lia; vm_compute in Hi, Hj;
    injection Hi as <-; injection Hj as <-; vm_compute; reflexivity.
Qed.

Lemma generate_coin_keeps_spacing_witness :
  spaced (coins session)
  /\ spaced (coins (snd (_generate_coin 600 300 session)))
  /\ List.length (coins (snd (_generate_coin 600 300 session))) = 4%nat.
Proof.
  split; [exact session_coins_spaced|].
  split; [|vm_compute; reflexivity].
  apply (generate_coin_keeps_spacing 600 300 session session_coins_spaced).
Defined.

Lemma coin_buff_window_witness :
  buff_end_time (update_coins at_coin) = 1000 + 60
  /\ bonus_mult 1000 (buff_end_time (update_coins at_coin)) = 2
  /\ bonus_mult 1059.9 (buff_end_time (update_coins at_coin)) = 2
  /\ bonus_mult 1060 (buff_end_time (update_coins at_coin)) = 1.
Proof.
  let v := eval vm_compute in
        (collect_first (touches_body at_coin) (coins at_coin)) in
  match v with
  | Some ?cs =>
      destruct (coin_buff_window at_coin cs 1000)
        as [He [_ [Hin Hout]]];
      [vm_compute; reflexivity | vm_compute; reflexivity |]
  end.
  split; [exact He|].
  split; [apply Hin; vm_compute; reflexivity|].
  split; [apply Hin; vm_compute; reflexivity|].
  apply Hout; vm_compute; reflexivity.
Defined.

Lemma spring_launch_in_frame_witness :
  exists s',
    _update frame on_spring = Return s'
    /\ vy s' = -760
    /\ calls is_launch s' = (calls is_launch on_spring + 1)%nat.
Proof.
  let v := eval vm_compute in (_update frame on_spring) in
  match v with
  | Return ?s' =>
      assert (Hu : _update frame on_spring = Return s')
        by (vm_compute; reflexivity);
      exists s'
  end.
  destruct (spring_launch_in_frame frame on_spring _ eq_refl Hu)
    as [_ [Hhit _]].
  destruct Hhit as [Hv [_ Hc]].
  - exists (mkRect 0 388 48 12). vm_compute. split; [left|]; reflexivity.
  - vm_compute. reflexivity.
  - split; [exact Hu|]. split; [exact Hv|exact Hc].
Defined.

(** C10 as stated fails.  A level 2400 wide is started in a window 1601
    wide: the first tick starts with [cam_x + 1.5 * w > level_extent_x], the
    camera eases left, and no chunk is appended. *)
Lemma level_play_counterexample :
  new_session 1601 <> None
  /\ level_session 1601 = Some level_session_1601
  /\ gtb (cam_x level_session_1601
          + 1.5 * of_int (w (cfg level_session_1601)))
         (level_extent_x level_session_1601) = true
  /\ match tick None [] frame level_session_1601 with
     | Return (true, s') =>
         platforms s' = platforms level_session_1601
         /\ level_extent_x s' = level_extent_x level_session_1601
         /\ calls is_chunk s' = calls is_chunk level_session_1601
     | _ => False
     end.
Proof.
  split; [vm_compute; discriminate|]. vm_compute. repeat split.
Qed.

Lemma seeded_level_extended_witness :
  level_session 2000 = Some level_session_2000
  /\ exists s',
       LevelPlayMode_update frame level_session_2000 = Return s'
       /\ platforms s'
          = platforms level_session_2000 ++ [mkPlatform 2400 414 203 48 None]
       /\ List.length (platforms level_session_2000)
          = List.length (filter (fun p => negb (lp_spikes p))
                           (lv_platforms level7)).
Proof.
  split; [vm_compute; reflexivity|].
  let v := eval vm_compute in
        (update_score (before_score frame level_session_2000)) in
  match v with
  | Return ?m =>
      assert (Hm : update_score (before_score frame level_session_2000)
                   = Return m) by (vm_compute; reflexivity);
      destruct (seeded_level_extended frame level_session_2000 m
                  (mkFinish 2320 320 34) eq_refl Hm)
        as [s' [Hu [Hp _]]]; [vm_compute; reflexivity|];
      exists s'; split; [exact Hu|]; split; [|vm_compute; reflexivity];
      rewrite Hp; vm_compute; reflexivity
  end.
Defined.

End Runs.
